(** * zkLove: the on-chain matching / reveal state machine

    A shallow embedding of the Solidity contract [zkLove] (registration,
    matching sessions, mutual matches, identity reveal, the Aura ledger and
    the owner / pause gates), followed by the properties of the
    specification that concern it.

    Conventions of the embedding:
    - [uint256], [bytes32] and [address] are natural numbers ([N]); the
      contract is compiled with Solidity 0.8, whose [+], [++] and [-=]
      revert on overflow and underflow, which [checked_add] and
      [checked_sub] write out;
    - a [mapping] is a finite map read through the total lookup [!!!], an
      absent key reading as the all-zero value of the struct;
    - an external function is a computation in the monad [M] (state and
      revert); [transact] gives a transaction its all-or-nothing meaning;
    - [keccak256(abi.encodePacked(address, address, uint256))] is a
      parameter of the development. *)

From Stdlib Require Import NArith String List Lia.
From stdpp Require Import base option numbers gmap.
Import ListNotations.

Open Scope N_scope.

(** ** Value types *)

Abbreviation uint256 := N (only parsing).
Abbreviation bytes32 := N (only parsing).
Abbreviation address := N (only parsing).

Definition MAX_UINT256 : uint256 := 2 ^ 256 - 1.

(** ** Structs *)

Module UserProfile.
Record t : Type := mk {
  biometricCommitment : bytes32;
  preferencesHash : bytes32;
  auraPoints : uint256;
  registrationTimestamp : uint256;
  lastActiveTimestamp : uint256;
  isActive : bool;
  isVerified : bool;
  totalMatches : uint256;
  totalReveals : uint256
}.

Definition zero : t := mk 0 0 0 0 0 false false 0 0.

Definition set_preferencesHash (v : bytes32) (p : t) : t :=
  mk (biometricCommitment p) v (auraPoints p) (registrationTimestamp p)
     (lastActiveTimestamp p) (isActive p) (isVerified p) (totalMatches p)
     (totalReveals p).

Definition set_auraPoints (v : uint256) (p : t) : t :=
  mk (biometricCommitment p) (preferencesHash p) v (registrationTimestamp p)
     (lastActiveTimestamp p) (isActive p) (isVerified p) (totalMatches p)
     (totalReveals p).

Definition set_lastActiveTimestamp (v : uint256) (p : t) : t :=
  mk (biometricCommitment p) (preferencesHash p) (auraPoints p)
     (registrationTimestamp p) v (isActive p) (isVerified p) (totalMatches p)
     (totalReveals p).

Definition set_isActive (v : bool) (p : t) : t :=
  mk (biometricCommitment p) (preferencesHash p) (auraPoints p)
     (registrationTimestamp p) (lastActiveTimestamp p) v (isVerified p)
     (totalMatches p) (totalReveals p).

Definition set_isVerified (v : bool) (p : t) : t :=
  mk (biometricCommitment p) (preferencesHash p) (auraPoints p)
     (registrationTimestamp p) (lastActiveTimestamp p) (isActive p) v
     (totalMatches p) (totalReveals p).

Definition set_totalMatches (v : uint256) (p : t) : t :=
  mk (biometricCommitment p) (preferencesHash p) (auraPoints p)
     (registrationTimestamp p) (lastActiveTimestamp p) (isActive p)
     (isVerified p) v (totalReveals p).

Definition set_totalReveals (v : uint256) (p : t) : t :=
  mk (biometricCommitment p) (preferencesHash p) (auraPoints p)
     (registrationTimestamp p) (lastActiveTimestamp p) (isActive p)
     (isVerified p) (totalMatches p) v.
End UserProfile.

Module MatchingSession.
Record t : Type := mk {
  user : address;
  matchingHash : bytes32;
  auraThreshold : uint256;
  timestamp : uint256;
  isActive : bool
}.

Definition zero : t := mk 0 0 0 0 false.
End MatchingSession.

Module MutualMatch.
Record t : Type := mk {
  user1 : address;
  user2 : address;
  compatibilityScore : uint256;
  matchTimestamp : uint256;
  user1Revealed : bool;
  user2Revealed : bool;
  revealTimestamp : uint256
}.

Definition zero : t := mk 0 0 0 0 false false 0.

Definition set_user1Revealed (v : bool) (m : t) : t :=
  mk (user1 m) (user2 m) (compatibilityScore m) (matchTimestamp m) v
     (user2Revealed m) (revealTimestamp m).

Definition set_user2Revealed (v : bool) (m : t) : t :=
  mk (user1 m) (user2 m) (compatibilityScore m) (matchTimestamp m)
     (user1Revealed m) v (revealTimestamp m).

Definition set_revealTimestamp (v : uint256) (m : t) : t :=
  mk (user1 m) (user2 m) (compatibilityScore m) (matchTimestamp m)
     (user1Revealed m) (user2Revealed m) v.
End MutualMatch.

#[global] Instance UserProfile_inhabited : Inhabited UserProfile.t :=
  populate UserProfile.zero.
#[global] Instance MatchingSession_inhabited : Inhabited MatchingSession.t :=
  populate MatchingSession.zero.
#[global] Instance MutualMatch_inhabited : Inhabited MutualMatch.t :=
  populate MutualMatch.zero.

(** The Groth16-shaped proof blob the entry points receive. *)
Record ZKProof : Type := mkZKProof {
  pi_a : uint256 * uint256;
  pi_b : (uint256 * uint256) * (uint256 * uint256);
  pi_c : uint256 * uint256;
  publicSignals : list uint256
}.

(** ** Events *)

Inductive Event : Type :=
| UserRegistered (user : address) (biometricCommitment : bytes32)
    (timestamp : uint256)
| MatchProofSubmitted (user : address) (matchingHash : bytes32)
    (timestamp : uint256)
| MutualMatchFound (user1 user2 : address) (compatibilityScore : uint256)
| IdentityRevealed (revealer recipient : address) (auraReward : uint256)
| AuraPointsAwarded (user : address) (points : uint256) (reason : string)
| AuraPointsDeducted (user : address) (points : uint256) (reason : string).

(** ** Contract storage *)

Record State : Type := mkState {
  userProfiles : gmap address UserProfile.t;
  matchingSessions : gmap bytes32 MatchingSession.t;
  mutualMatches : gmap bytes32 MutualMatch.t;
  hasRevealed : gmap (address * address) bool;
  owner : address;
  totalUsers : uint256;
  totalMatches : uint256;
  totalReveals : uint256;
  contractPaused : bool;
  events : list Event
}.

Definition set_userProfiles (v : gmap address UserProfile.t) (s : State) :=
  mkState v (matchingSessions s) (mutualMatches s) (hasRevealed s) (owner s)
    (totalUsers s) (totalMatches s) (totalReveals s) (contractPaused s)
    (events s).

Definition set_matchingSessions (v : gmap bytes32 MatchingSession.t)
    (s : State) :=
  mkState (userProfiles s) v (mutualMatches s) (hasRevealed s) (owner s)
    (totalUsers s) (totalMatches s) (totalReveals s) (contractPaused s)
    (events s).

Definition set_mutualMatches (v : gmap bytes32 MutualMatch.t) (s : State) :=
  mkState (userProfiles s) (matchingSessions s) v (hasRevealed s) (owner s)
    (totalUsers s) (totalMatches s) (totalReveals s) (contractPaused s)
    (events s).

Definition set_hasRevealed (v : gmap (address * address) bool) (s : State) :=
  mkState (userProfiles s) (matchingSessions s) (mutualMatches s) v (owner s)
    (totalUsers s) (totalMatches s) (totalReveals s) (contractPaused s)
    (events s).

Definition set_owner (v : address) (s : State) :=
  mkState (userProfiles s) (matchingSessions s) (mutualMatches s)
    (hasRevealed s) v (totalUsers s) (totalMatches s) (totalReveals s)
    (contractPaused s) (events s).

Definition set_totalUsers (v : uint256) (s : State) :=
  mkState (userProfiles s) (matchingSessions s) (mutualMatches s)
    (hasRevealed s) (owner s) v (totalMatches s) (totalReveals s)
    (contractPaused s) (events s).

Definition set_totalMatches (v : uint256) (s : State) :=
  mkState (userProfiles s) (matchingSessions s) (mutualMatches s)
    (hasRevealed s) (owner s) (totalUsers s) v (totalReveals s)
    (contractPaused s) (events s).

Definition set_totalReveals (v : uint256) (s : State) :=
  mkState (userProfiles s) (matchingSessions s) (mutualMatches s)
    (hasRevealed s) (owner s) (totalUsers s) (totalMatches s) v
    (contractPaused s) (events s).

Definition set_contractPaused (v : bool) (s : State) :=
  mkState (userProfiles s) (matchingSessions s) (mutualMatches s)
    (hasRevealed s) (owner s) (totalUsers s) (totalMatches s)
    (totalReveals s) v (events s).

Definition set_events (v : list Event) (s : State) :=
  mkState (userProfiles s) (matchingSessions s) (mutualMatches s)
    (hasRevealed s) (owner s) (totalUsers s) (totalMatches s)
    (totalReveals s) (contractPaused s) v.

(** What a call sees of its transaction. *)
Record Env : Type := mkEnv {
  msg_sender : address;
  block_timestamp : uint256
}.

(** ** Reverts *)

(** One constructor per [require] message of the contract, and [Panic] for
    the arithmetic checks of the compiler. *)
Inductive Error : Type :=
| OnlyOwner
| ContractIsPaused
| UserNotRegistered
| UserNotActive
| UserAlreadyRegistered
| InvalidBiometricCommitment
| InvalidPreferencesHash
| InvalidMatchingHash
| CannotMatchWithSelf
| BothUsersMustBeActive
| InvalidCompatibilityScore
| NotPartOfThisMatch
| MatchDoesNotExist
| InvalidNewOwner
| Panic.

Definition message (e : Error) : string :=
  match e with
  | OnlyOwner => "Only owner can call this function"
  | ContractIsPaused => "Contract is paused"
  | UserNotRegistered => "User not registered"
  | UserNotActive => "User not active"
  | UserAlreadyRegistered => "User already registered"
  | InvalidBiometricCommitment => "Invalid biometric commitment"
  | InvalidPreferencesHash => "Invalid preferences hash"
  | InvalidMatchingHash => "Invalid matching hash"
  | CannotMatchWithSelf => "Cannot match with self"
  | BothUsersMustBeActive => "Both users must be active"
  | InvalidCompatibilityScore => "Invalid compatibility score"
  | NotPartOfThisMatch => "Not part of this match"
  | MatchDoesNotExist => "Match does not exist"
  | InvalidNewOwner => "Invalid new owner"
  | Panic => "panic: arithmetic underflow or overflow (0x11)"
  end%string.

(** The error kinds of the specification, as the contract reports them. *)
Abbreviation Paused := ContractIsPaused (only parsing).
Abbreviation Unauthorized := OnlyOwner (only parsing).
Abbreviation NotRegistered := UserNotRegistered (only parsing).
Abbreviation AlreadyRegistered := UserAlreadyRegistered (only parsing).
Abbreviation InvalidCommitment := InvalidBiometricCommitment (only parsing).
Abbreviation InactiveParticipant := BothUsersMustBeActive (only parsing).
Abbreviation InvalidScore := InvalidCompatibilityScore (only parsing).
Abbreviation NotParticipant := NotPartOfThisMatch (only parsing).
Abbreviation NotFound := MatchDoesNotExist (only parsing).
Abbreviation InvalidOwner := InvalidNewOwner (only parsing).

Inductive result (A : Type) : Type :=
| Ok (a : A)
| Revert (e : Error).
Arguments Ok {A} a.
Arguments Revert {A} e.

(** ** The contract monad: storage threaded through, revert aborts *)

Definition M (A : Type) : Type := State -> result (A * State).

Definition ret {A} (a : A) : M A := fun s => Ok (a, s).

Definition bind {A B} (m : M A) (k : A -> M B) : M B :=
  fun s => match m s with
           | Ok (a, s') => k a s'
           | Revert e => Revert e
           end.

Notation "x <- m ;; k" := (bind m (fun x => k))
  (at level 100, m at next level, right associativity).
Notation "m ;; k" := (bind m (fun _ => k))
  (at level 100, right associativity).

Definition get : M State := fun s => Ok (s, s).
Definition modify (f : State -> State) : M unit := fun s => Ok (tt, f s).
Definition revert {A} (e : Error) : M A := fun _ => Revert e.

Definition require (cond : bool) (e : Error) : M unit :=
  if cond then ret tt else revert e.

Definition emit (ev : Event) : M unit :=
  modify (fun s => set_events (events s ++ [ev]) s).

Definition checked_add (a b : uint256) : M uint256 :=
  if a + b <=? MAX_UINT256 then ret (a + b) else revert Panic.

Definition checked_sub (a b : uint256) : M uint256 :=
  if b <=? a then ret (a - b) else revert Panic.

(** ** Storage accessors *)

(** [userProfiles[a].f = ...]: a write through the mapping. *)
Definition update_profile (a : address)
    (f : UserProfile.t -> UserProfile.t) : M unit :=
  modify (fun s =>
    set_userProfiles (<[a := f (userProfiles s !!! a)]> (userProfiles s)) s).

(** A write through the storage pointer [match = mutualMatches[matchId]]. *)
Definition update_match (matchId : bytes32)
    (f : MutualMatch.t -> MutualMatch.t) : M unit :=
  modify (fun s =>
    set_mutualMatches
      (<[matchId := f (mutualMatches s !!! matchId)]> (mutualMatches s)) s).

(** [userProfiles[a].auraPoints += n] *)
Definition add_auraPoints (a : address) (n : uint256) : M unit :=
  s <- get ;;
  v <- checked_add (UserProfile.auraPoints (userProfiles s !!! a)) n ;;
  update_profile a (UserProfile.set_auraPoints v).

(** [userProfiles[a].totalMatches++] *)
Definition incr_profile_totalMatches (a : address) : M unit :=
  s <- get ;;
  v <- checked_add (UserProfile.totalMatches (userProfiles s !!! a)) 1 ;;
  update_profile a (UserProfile.set_totalMatches v).

(** [userProfiles[a].totalReveals++] *)
Definition incr_profile_totalReveals (a : address) : M unit :=
  s <- get ;;
  v <- checked_add (UserProfile.totalReveals (userProfiles s !!! a)) 1 ;;
  update_profile a (UserProfile.set_totalReveals v).

(** ** Constants *)

Definition REGISTRATION_AURA : uint256 := 100.
Definition MATCH_AURA : uint256 := 75.
Definition REVEAL_AURA : uint256 := 150.
Definition VERIFICATION_AURA : uint256 := 100.

(** ** Modifiers *)

Definition onlyOwner (env : Env) : M unit :=
  s <- get ;;
  require (msg_sender env =? owner s) OnlyOwner.

Definition whenNotPaused : M unit :=
  s <- get ;;
  require (negb (contractPaused s)) ContractIsPaused.

Definition onlyRegisteredUser (env : Env) : M unit :=
  s <- get ;;
  require
    (negb (UserProfile.biometricCommitment
             (userProfiles s !!! msg_sender env) =? 0))
    UserNotRegistered.

Definition onlyActiveUser (env : Env) : M unit :=
  s <- get ;;
  require (UserProfile.isActive (userProfiles s !!! msg_sender env))
    UserNotActive.

(** ** Constructor *)

Definition constructor (deployer : address) : State :=
  mkState ∅ ∅ ∅ ∅ deployer 0 0 0 false [].

(** ** Proof verification placeholders (internal, pure) *)

Definition verifyRegistrationProof (proof : ZKProof)
    (biometricCommitment : bytes32) : bool :=
  (0 <? N.of_nat (length (publicSignals proof)))
  && negb (biometricCommitment =? 0).

Definition verifyMatchingProof (proof : ZKProof) (matchingHash : bytes32)
    : bool :=
  (0 <? N.of_nat (length (publicSignals proof))) && negb (matchingHash =? 0).

Definition verifyUnlockProof (proof : ZKProof) (matchId : bytes32)
    (user : address) : bool :=
  (0 <? N.of_nat (length (publicSignals proof)))
  && negb (matchId =? 0) && negb (user =? 0).

(** ** User registration *)

(** The registration proof is received and not examined: the call to
    [verifyRegistrationProof] is commented out in the contract. *)
Definition registerUser (env : Env) (biometricCommitment : bytes32)
    (preferencesHash : bytes32) (registrationProof : ZKProof) : M unit :=
  whenNotPaused ;;
  s <- get ;;
  require
    (UserProfile.biometricCommitment (userProfiles s !!! msg_sender env) =? 0)
    UserAlreadyRegistered ;;
  require (negb (biometricCommitment =? 0)) InvalidBiometricCommitment ;;
  modify (fun s =>
    set_userProfiles
      (<[msg_sender env :=
           UserProfile.mk biometricCommitment preferencesHash
             REGISTRATION_AURA (block_timestamp env) (block_timestamp env)
             true false 0 0]> (userProfiles s)) s) ;;
  s <- get ;;
  n <- checked_add (totalUsers s) 1 ;;
  modify (set_totalUsers n) ;;
  emit (UserRegistered (msg_sender env) biometricCommitment
          (block_timestamp env)) ;;
  emit (AuraPointsAwarded (msg_sender env) REGISTRATION_AURA "Registration").

Definition updatePreferences (env : Env) (newPreferencesHash : bytes32)
    (updateProof : ZKProof) : M unit :=
  onlyRegisteredUser env ;;
  whenNotPaused ;;
  require (negb (newPreferencesHash =? 0)) InvalidPreferencesHash ;;
  update_profile (msg_sender env)
    (UserProfile.set_preferencesHash newPreferencesHash) ;;
  update_profile (msg_sender env)
    (UserProfile.set_lastActiveTimestamp (block_timestamp env)).

(** ** Matching *)

Definition submitMatchingProof (env : Env) (matchingHash : bytes32)
    (auraThreshold : uint256) (matchingProof : ZKProof) : M unit :=
  onlyRegisteredUser env ;;
  onlyActiveUser env ;;
  whenNotPaused ;;
  require (negb (matchingHash =? 0)) InvalidMatchingHash ;;
  modify (fun s =>
    set_matchingSessions
      (<[matchingHash :=
           MatchingSession.mk (msg_sender env) matchingHash auraThreshold
             (block_timestamp env) true]> (matchingSessions s)) s) ;;
  update_profile (msg_sender env)
    (UserProfile.set_lastActiveTimestamp (block_timestamp env)) ;;
  emit (MatchProofSubmitted (msg_sender env) matchingHash
          (block_timestamp env)).

Section Contract.

(** [keccak256(abi.encodePacked(a, b, t))] for two addresses and a uint256. *)
Variable keccak256_packed : address -> address -> uint256 -> bytes32.

Definition recordMutualMatch (env : Env) (user1 user2 : address)
    (compatibilityScore : uint256) (matchProof : ZKProof) : M unit :=
  onlyOwner env ;;
  whenNotPaused ;;
  require (negb (user1 =? user2)) CannotMatchWithSelf ;;
  s <- get ;;
  require
    (UserProfile.isActive (userProfiles s !!! user1)
     && UserProfile.isActive (userProfiles s !!! user2))
    BothUsersMustBeActive ;;
  require (compatibilityScore <=? 100) InvalidCompatibilityScore ;;
  let matchId := keccak256_packed user1 user2 (block_timestamp env) in
  modify (fun s =>
    set_mutualMatches
      (<[matchId :=
           MutualMatch.mk user1 user2 compatibilityScore
             (block_timestamp env) false false 0]> (mutualMatches s)) s) ;;
  add_auraPoints user1 MATCH_AURA ;;
  add_auraPoints user2 MATCH_AURA ;;
  incr_profile_totalMatches user1 ;;
  incr_profile_totalMatches user2 ;;
  s <- get ;;
  n <- checked_add (totalMatches s) 1 ;;
  modify (set_totalMatches n) ;;
  emit (MutualMatchFound user1 user2 compatibilityScore) ;;
  emit (AuraPointsAwarded user1 MATCH_AURA "Mutual Match") ;;
  emit (AuraPointsAwarded user2 MATCH_AURA "Mutual Match").

(** ** Selective identity disclosure *)

Definition initiateIdentityReveal (env : Env) (matchId : bytes32)
    (revealCommitments : list bytes32) (unlockProof : ZKProof) : M unit :=
  onlyRegisteredUser env ;;
  whenNotPaused ;;
  s <- get ;;
  let match_ := mutualMatches s !!! matchId in
  require
    ((MutualMatch.user1 match_ =? msg_sender env)
     || (MutualMatch.user2 match_ =? msg_sender env))
    NotPartOfThisMatch ;;
  require (0 <? MutualMatch.matchTimestamp match_) MatchDoesNotExist ;;
  (if MutualMatch.user1 match_ =? msg_sender env
   then update_match matchId (MutualMatch.set_user1Revealed true)
   else update_match matchId (MutualMatch.set_user2Revealed true)) ;;
  s <- get ;;
  let match_ := mutualMatches s !!! matchId in
  (if MutualMatch.user1Revealed match_ && MutualMatch.user2Revealed match_
   then
     update_match matchId
       (MutualMatch.set_revealTimestamp (block_timestamp env)) ;;
     add_auraPoints (MutualMatch.user1 match_) REVEAL_AURA ;;
     add_auraPoints (MutualMatch.user2 match_) REVEAL_AURA ;;
     incr_profile_totalReveals (MutualMatch.user1 match_) ;;
     incr_profile_totalReveals (MutualMatch.user2 match_) ;;
     s <- get ;;
     n <- checked_add (totalReveals s) 1 ;;
     modify (set_totalReveals n) ;;
     emit (IdentityRevealed (MutualMatch.user1 match_)
             (MutualMatch.user2 match_) REVEAL_AURA) ;;
     emit (IdentityRevealed (MutualMatch.user2 match_)
             (MutualMatch.user1 match_) REVEAL_AURA) ;;
     emit (AuraPointsAwarded (MutualMatch.user1 match_) REVEAL_AURA
             "Identity Reveal") ;;
     emit (AuraPointsAwarded (MutualMatch.user2 match_) REVEAL_AURA
             "Identity Reveal")
   else ret tt) ;;
  s <- get ;;
  let match_ := mutualMatches s !!! matchId in
  let recipient :=
    if matchId =? keccak256_packed (MutualMatch.user1 match_)
                    (MutualMatch.user2 match_)
                    (MutualMatch.matchTimestamp match_)
    then MutualMatch.user1 match_
    else MutualMatch.user2 match_ in
  modify (fun s =>
    set_hasRevealed (<[(msg_sender env, recipient) := true]> (hasRevealed s))
      s).

(** ** Aura point system *)

Definition awardBonusAura (env : Env) (user : address) (points : uint256)
    (reason : string) : M unit :=
  onlyOwner env ;;
  whenNotPaused ;;
  s <- get ;;
  require
    (negb (UserProfile.biometricCommitment (userProfiles s !!! user) =? 0))
    UserNotRegistered ;;
  add_auraPoints user points ;;
  emit (AuraPointsAwarded user points reason).

Definition deductAura (env : Env) (user : address) (points : uint256)
    (reason : string) : M unit :=
  onlyOwner env ;;
  whenNotPaused ;;
  s <- get ;;
  require
    (negb (UserProfile.biometricCommitment (userProfiles s !!! user) =? 0))
    UserNotRegistered ;;
  (if points <=? UserProfile.auraPoints (userProfiles s !!! user)
   then
     v <- checked_sub (UserProfile.auraPoints (userProfiles s !!! user))
            points ;;
     update_profile user (UserProfile.set_auraPoints v)
   else update_profile user (UserProfile.set_auraPoints 0)) ;;
  emit (AuraPointsDeducted user points reason).

(** ** User management *)

Definition setActiveStatus (env : Env) (isActive : bool) : M unit :=
  onlyRegisteredUser env ;;
  whenNotPaused ;;
  update_profile (msg_sender env) (UserProfile.set_isActive isActive) ;;
  update_profile (msg_sender env)
    (UserProfile.set_lastActiveTimestamp (block_timestamp env)).

Definition verifyUser (env : Env) (user : address) : M unit :=
  onlyOwner env ;;
  whenNotPaused ;;
  s <- get ;;
  require
    (negb (UserProfile.biometricCommitment (userProfiles s !!! user) =? 0))
    UserNotRegistered ;;
  update_profile user (UserProfile.set_isVerified true) ;;
  add_auraPoints user VERIFICATION_AURA ;;
  emit (AuraPointsAwarded user VERIFICATION_AURA "Profile Verification").

(** ** View functions *)

Definition getUserProfile (s : State) (user : address) : UserProfile.t :=
  userProfiles s !!! user.

Definition getMatchingSession (s : State) (matchingHash : bytes32)
    : MatchingSession.t :=
  matchingSessions s !!! matchingHash.

Definition getMutualMatch (s : State) (matchId : bytes32) : MutualMatch.t :=
  mutualMatches s !!! matchId.

(** An unset entry of [hasRevealed] reads as [false]. *)
Definition hasUserRevealed (s : State) (revealer recipient : address) : bool :=
  default false (hasRevealed s !! (revealer, recipient)).

Definition getContractStats (s : State) : uint256 * uint256 * uint256 :=
  (totalUsers s, totalMatches s, totalReveals s).

(** ** Admin functions *)

Definition setPaused (env : Env) (paused : bool) : M unit :=
  onlyOwner env ;;
  modify (set_contractPaused paused).

Definition transferOwnership (env : Env) (newOwner : address) : M unit :=
  onlyOwner env ;;
  require (negb (newOwner =? 0)) InvalidNewOwner ;;
  modify (set_owner newOwner).

(** ** Transactions *)

(** The external, state-changing entry points with their arguments. *)
Inductive Call : Type :=
| RegisterUser (biometricCommitment preferencesHash : bytes32)
    (registrationProof : ZKProof)
| UpdatePreferences (newPreferencesHash : bytes32) (updateProof : ZKProof)
| SubmitMatchingProof (matchingHash : bytes32) (auraThreshold : uint256)
    (matchingProof : ZKProof)
| RecordMutualMatch (user1 user2 : address) (compatibilityScore : uint256)
    (matchProof : ZKProof)
| InitiateIdentityReveal (matchId : bytes32)
    (revealCommitments : list bytes32) (unlockProof : ZKProof)
| AwardBonusAura (user : address) (points : uint256) (reason : string)
| DeductAura (user : address) (points : uint256) (reason : string)
| SetActiveStatus (isActive : bool)
| VerifyUser (user : address)
| SetPaused (paused : bool)
| TransferOwnership (newOwner : address).

Definition dispatch (env : Env) (c : Call) : M unit :=
  match c with
  | RegisterUser b p z => registerUser env b p z
  | UpdatePreferences p z => updatePreferences env p z
  | SubmitMatchingProof h t z => submitMatchingProof env h t z
  | RecordMutualMatch u1 u2 sc z => recordMutualMatch env u1 u2 sc z
  | InitiateIdentityReveal i rc z => initiateIdentityReveal env i rc z
  | AwardBonusAura u p r => awardBonusAura env u p r
  | DeductAura u p r => deductAura env u p r
  | SetActiveStatus a => setActiveStatus env a
  | VerifyUser u => verifyUser env u
  | SetPaused p => setPaused env p
  | TransferOwnership o => transferOwnership env o
  end.

(** A transaction commits the storage the call ends with, or reverts to
    the storage it started from and reports the error. *)
Definition transact (tx : M unit) (s : State) : State * option Error :=
  match tx s with
  | Ok (_, s') => (s', None)
  | Revert e => (s, Some e)
  end.

Definition step (env : Env) (c : Call) (s : State) : State :=
  fst (transact (dispatch env c) s).

Definition outcome (env : Env) (c : Call) (s : State) : option Error :=
  snd (transact (dispatch env c) s).

(** A run of transactions, oldest first. *)
Fixpoint run (txs : list (Env * Call)) (s : State) : State :=
  match txs with
  | [] => s
  | (env, c) :: rest => run rest (step env c s)
  end.

(** The storage states a deployed contract can be in. *)
Inductive reachable : State -> Prop :=
| reachable_deploy (deployer : address) : reachable (constructor deployer)
| reachable_step (env : Env) (c : Call) (s : State) :
    reachable s -> reachable (step env c s).

End Contract.

(** A stand-in for the digest, used to run the examples: it packs its three
    arguments side by side, so distinct arguments give distinct
    identifiers. *)
Definition packed_id (a b : address) (t : uint256) : bytes32 :=
  a + 2 ^ 160 * (b + 2 ^ 160 * t).

(** ** A sample deployment

    The owner is address 9; addresses 1 and 2 register, are matched at time
    1000 and reveal in turn. The later sections run the contract on these
    states. *)

Definition no_signals : ZKProof := mkZKProof (0, 0) ((0, 0), (0, 0)) (0, 0) [].

Definition registered : State :=
  run packed_id
    [ (mkEnv 1 10, RegisterUser 11 12 no_signals);
      (mkEnv 2 11, RegisterUser 21 22 no_signals) ]
    (constructor 9).

Definition matched : State :=
  run packed_id [ (mkEnv 9 1000, RecordMutualMatch 1 2 80 no_signals) ]
    registered.

Definition sample_matchId : bytes32 := packed_id 1 2 1000.

Definition first_revealed : State :=
  run packed_id
    [ (mkEnv 1 2000, InitiateIdentityReveal sample_matchId [] no_signals) ]
    matched.

Definition second_revealed : State :=
  run packed_id
    [ (mkEnv 2 2000, InitiateIdentityReveal sample_matchId [] no_signals) ]
    matched.

Definition both_revealed : State :=
  run packed_id
    [ (mkEnv 2 2001, InitiateIdentityReveal sample_matchId [] no_signals) ]
    first_revealed.

Definition paused : State :=
  run packed_id [ (mkEnv 9 20, SetPaused true) ] registered.

(** ** Profile updates on the mapping alone

    [upd a f] is what [userProfiles[a].field = ...] does to the mapping; the
    three functions are the updates the match and reveal rewards apply. *)

Definition upd (a : address) (f : UserProfile.t -> UserProfile.t)
    (m : gmap address UserProfile.t) : gmap address UserProfile.t :=
  <[a := f (m !!! a)]> m.

Definition credit (n : uint256) (p : UserProfile.t) : UserProfile.t :=
  UserProfile.set_auraPoints (UserProfile.auraPoints p + n) p.

Definition count_match (p : UserProfile.t) : UserProfile.t :=
  UserProfile.set_totalMatches (UserProfile.totalMatches p + 1) p.

Definition count_reveal (p : UserProfile.t) : UserProfile.t :=
  UserProfile.set_totalReveals (UserProfile.totalReveals p + 1) p.

(** An update that leaves the registration of a profile alone. *)
Definition keeps_commitment (f : UserProfile.t -> UserProfile.t) : Prop :=
  forall p, UserProfile.biometricCommitment (f p)
            = UserProfile.biometricCommitment p.

(** ** Well-formed storage

    What the entry points maintain: an address has a stored profile only
    once registered; a stored match sits under the digest of its own
    participants and timestamp, joins two distinct registered users and
    has a score of at most 100; [totalUsers] counts the stored profiles. *)

Definition registered_in (s : State) (a : address) : Prop :=
  UserProfile.biometricCommitment (userProfiles s !!! a) <> 0.

Definition storage_wf
    (keccak256_packed : address -> address -> uint256 -> bytes32)
    (s : State) : Prop :=
  (forall a, is_Some (userProfiles s !! a) -> registered_in s a)
  /\ (forall i m,
        mutualMatches s !! i = Some m ->
        i = keccak256_packed (MutualMatch.user1 m) (MutualMatch.user2 m)
              (MutualMatch.matchTimestamp m)
        /\ MutualMatch.user1 m <> MutualMatch.user2 m
        /\ MutualMatch.compatibilityScore m <= 100
        /\ registered_in s (MutualMatch.user1 m)
        /\ registered_in s (MutualMatch.user2 m))
  /\ totalUsers s = N.of_nat (size (userProfiles s)).

(** * Proof infrastructure *)

(** Unfolds the monad and the storage accessors, leaving the guards of the
    entry point as nested conditionals. *)
Ltac unfold_monad :=
  cbv beta iota delta
    [bind ret get modify revert require emit checked_add checked_sub
     update_profile update_match add_auraPoints incr_profile_totalMatches
     incr_profile_totalReveals onlyOwner whenNotPaused onlyRegisteredUser
     onlyActiveUser transact].

Ltac unfold_monad_in H :=
  cbv beta iota delta
    [bind ret get modify revert require emit checked_add checked_sub
     update_profile update_match add_auraPoints incr_profile_totalMatches
     incr_profile_totalReveals onlyOwner whenNotPaused onlyRegisteredUser
     onlyActiveUser transact] in H.

(** Projections of an updated storage record. *)
Ltac simpl_state :=
  cbn [userProfiles matchingSessions mutualMatches hasRevealed owner
       totalUsers totalMatches totalReveals contractPaused events
       set_userProfiles set_matchingSessions set_mutualMatches
       set_hasRevealed set_owner set_totalUsers set_totalMatches
       set_totalReveals set_contractPaused set_events fst snd] in *.

Ltac simpl_struct :=
  cbn [UserProfile.biometricCommitment UserProfile.preferencesHash
       UserProfile.auraPoints UserProfile.registrationTimestamp
       UserProfile.lastActiveTimestamp UserProfile.isActive
       UserProfile.isVerified UserProfile.totalMatches
       UserProfile.totalReveals UserProfile.set_preferencesHash
       UserProfile.set_auraPoints UserProfile.set_lastActiveTimestamp
       UserProfile.set_isActive UserProfile.set_isVerified
       UserProfile.set_totalMatches UserProfile.set_totalReveals
       MutualMatch.user1 MutualMatch.user2 MutualMatch.compatibilityScore
       MutualMatch.matchTimestamp MutualMatch.user1Revealed
       MutualMatch.user2Revealed MutualMatch.revealTimestamp
       MutualMatch.set_user1Revealed MutualMatch.set_user2Revealed
       MutualMatch.set_revealTimestamp] in *.

(** Boolean guards as propositions. *)
Ltac bool_norm :=
  repeat match goal with
  | H : negb _ = true |- _ => apply negb_true_iff in H
  | H : negb _ = false |- _ => apply negb_false_iff in H
  | H : (_ && _) = true |- _ =>
      apply andb_true_iff in H; destruct H
  | H : (_ || _) = false |- _ =>
      apply orb_false_iff in H; destruct H
  | H : (_ =? _) = true |- _ => apply N.eqb_eq in H
  | H : (_ =? _) = false |- _ => apply N.eqb_neq in H
  | H : (_ <=? _) = true |- _ => apply N.leb_le in H
  | H : (_ <=? _) = false |- _ => apply N.leb_gt in H
  | H : (_ <? _) = true |- _ => apply N.ltb_lt in H
  | H : (_ <? _) = false |- _ => apply N.ltb_ge in H
  end.

(** Case analysis on the outermost guard of a call whose result is known. *)
Ltac on_guard H :=
  match type of H with
  | context [if ?c then _ else _] =>
      let E := fresh "E" in
      destruct c eqn:E; try discriminate H
  end.

Ltac inv_ok H := injection H as H; subst.

(** * The Aura ledger *)

(** C8: an admitted [deductAura] (owner calling, contract not paused, user
    registered) never reverts on the subtraction and leaves the balance at
    the old balance minus [min(points, old balance)]; a deduction of at
    least the balance leaves zero. *)
Theorem deductAura_saturates env user points reason s :
  msg_sender env = owner s ->
  contractPaused s = false ->
  UserProfile.biometricCommitment (getUserProfile s user) <> 0 ->
  exists s',
    deductAura env user points reason s = Ok (tt, s')
    /\ UserProfile.auraPoints (getUserProfile s' user)
       = UserProfile.auraPoints (getUserProfile s user)
         - N.min points (UserProfile.auraPoints (getUserProfile s user))
    /\ (UserProfile.auraPoints (getUserProfile s user) <= points ->
        UserProfile.auraPoints (getUserProfile s' user) = 0).
Proof.
  unfold getUserProfile. intros Hown Hp Hreg.
  unfold deductAura. unfold_monad.
  rewrite Hown, N.eqb_refl, Hp. cbn [negb].
  apply N.eqb_neq in Hreg. rewrite Hreg. cbn [negb].
  destruct (N.leb_spec points
              (UserProfile.auraPoints (userProfiles s !!! user))) as [Hle|Hlt];
    cbv beta iota; eexists; (split; [reflexivity|]); simpl_state;
    rewrite lookup_total_insert_eq; simpl_struct; split; lia.
Qed.

(** The owner deducts 500 from a balance of 100. *)
Lemma deductAura_saturates_witness :
  exists s',
    deductAura (mkEnv 9 30) 1 500 "spam" registered = Ok (tt, s')
    /\ UserProfile.auraPoints (getUserProfile s' 1) = 0.
Proof.
  destruct (deductAura_saturates (mkEnv 9 30) 1 500 "spam" registered)
    as (s' & Hrun & _ & Hzero).
  - reflexivity.
  - reflexivity.
  - vm_compute. discriminate.
  - exists s'. split; [exact Hrun|]. apply Hzero. vm_compute. discriminate.
Defined.
(** * Registration *)

(** C6: once [registerUser] has succeeded for a principal, a second
    [registerUser] by that principal on the storage the first call left,
    whatever its arguments and block timestamp, fails with
    AlreadyRegistered, and the storage stays the one the first call
    left. *)
Theorem registerUser_twice env1 env2 c1 p1 z1 c2 p2 z2 s s' :
  msg_sender env2 = msg_sender env1 ->
  registerUser env1 c1 p1 z1 s = Ok (tt, s') ->
  transact (registerUser env2 c2 p2 z2) s' = (s', Some AlreadyRegistered).
Proof.
  intros Hsender H. unfold registerUser in *. unfold_monad_in H.
  on_guard H. on_guard H. on_guard H. on_guard H. inv_ok H.
  unfold_monad. simpl_state. bool_norm.
  rewrite E. cbn [negb]. cbv beta iota. simpl_state.
  rewrite Hsender, lookup_total_insert_eq. simpl_struct.
  apply N.eqb_neq in E1. rewrite E1. reflexivity.
Qed.

(** Address 1 registers on a fresh deployment and tries again. *)
Lemma registerUser_twice_witness :
  transact (registerUser (mkEnv 1 99) 77 78 no_signals)
    (step packed_id (mkEnv 1 10) (RegisterUser 11 12 no_signals)
       (constructor 9))
  = (step packed_id (mkEnv 1 10) (RegisterUser 11 12 no_signals)
       (constructor 9),
     Some AlreadyRegistered).
Proof.
  apply (registerUser_twice (mkEnv 1 10) (mkEnv 1 99) 11 12 no_signals
           77 78 no_signals (constructor 9)).
  - reflexivity.
  - vm_compute. reflexivity.
Defined.

(** C3: [registerUser] does not verify the registration proof; the
    [require] on [verifyRegistrationProof] is commented out. The result of
    the call is the same for every proof, in every storage, so no proof
    makes it fail; and for a caller not yet registered, on a contract that
    is not paused, with a non-zero commitment, the call succeeds and stores
    the profile with the registration Aura, also for a proof that
    [verifyRegistrationProof] rejects. *)
Theorem registerUser_proof_unchecked env c p z s :
  (forall z', registerUser env c p z' s = registerUser env c p z s)
  /\ (contractPaused s = false ->
      UserProfile.biometricCommitment (getUserProfile s (msg_sender env))
      = 0 ->
      c <> 0 ->
      totalUsers s < MAX_UINT256 ->
      exists s',
        registerUser env c p z s = Ok (tt, s')
        /\ getUserProfile s' (msg_sender env)
           = UserProfile.mk c p REGISTRATION_AURA (block_timestamp env)
               (block_timestamp env) true false 0 0
        /\ totalUsers s' = totalUsers s + 1).
Proof.
  split; [reflexivity|].
  unfold getUserProfile. intros Hp Hnew Hc Hroom.
  unfold registerUser. unfold_monad.
  rewrite Hp. cbn [negb]. cbv beta iota.
  rewrite Hnew, N.eqb_refl. cbv beta iota.
  apply N.eqb_neq in Hc. rewrite Hc. cbn [negb]. cbv beta iota. simpl_state.
  assert (Hle : (totalUsers s + 1 <=? MAX_UINT256) = true)
    by (apply N.leb_le; lia).
  rewrite Hle. cbv beta iota. simpl_state.
  eexists. split; [reflexivity|]. simpl_state.
  split; [|reflexivity].
  apply lookup_total_insert_eq.
Qed.

(** Address 1 registers on a fresh deployment with a proof that carries no
    public signal, which [verifyRegistrationProof] rejects. *)
Lemma registerUser_proof_unchecked_witness :
  verifyRegistrationProof no_signals 11 = false
  /\ exists s',
       registerUser (mkEnv 1 10) 11 12 no_signals (constructor 9)
       = Ok (tt, s')
       /\ UserProfile.auraPoints (getUserProfile s' 1) = 100.
Proof.
  split; [reflexivity|].
  destruct (proj2 (registerUser_proof_unchecked (mkEnv 1 10) 11 12
                     no_signals (constructor 9)))
    as (s' & Hrun & Hprofile & _).
  - reflexivity.
  - reflexivity.
  - discriminate.
  - reflexivity.
  - exists s'. split; [exact Hrun|].
    change (mkEnv 1 10).(msg_sender) with 1 in Hprofile.
    rewrite Hprofile. reflexivity.
Defined.

(** * Matching sessions *)

(** What an admitted [submitMatchingProof] stores. *)
Lemma submitMatchingProof_ok env c t z s :
  contractPaused s = false ->
  UserProfile.biometricCommitment (userProfiles s !!! msg_sender env) <> 0 ->
  UserProfile.isActive (userProfiles s !!! msg_sender env) = true ->
  c <> 0 ->
  submitMatchingProof env c t z s
  = Ok (tt,
        set_events
          (events s
           ++ [MatchProofSubmitted (msg_sender env) c (block_timestamp env)])
          (set_userProfiles
             (<[msg_sender env :=
                  UserProfile.set_lastActiveTimestamp (block_timestamp env)
                    (userProfiles s !!! msg_sender env)]> (userProfiles s))
             (set_matchingSessions
                (<[c := MatchingSession.mk (msg_sender env) c t
                          (block_timestamp env) true]> (matchingSessions s))
                s))).
Proof.
  intros Hp Hreg Hact Hc. unfold submitMatchingProof. unfold_monad.
  apply N.eqb_neq in Hreg. rewrite Hreg. cbn [negb]. cbv beta iota.
  rewrite Hact. cbv beta iota. rewrite Hp. cbn [negb]. cbv beta iota.
  apply N.eqb_neq in Hc. rewrite Hc. cbn [negb]. cbv beta iota.
  simpl_state. reflexivity.
Qed.

(** C10: [submitMatchingProof] does not check who owns a session. When two
    registered, active principals P and Q submit under the same non-zero
    commitment, P first, both calls succeed and the session stored under the
    commitment after Q's call is Q's: owner Q, Q's threshold, Q's
    timestamp. *)
Theorem submitMatchingProof_overwrites envP envQ c tP tQ zP zQ s :
  contractPaused s = false ->
  c <> 0 ->
  UserProfile.biometricCommitment (getUserProfile s (msg_sender envP)) <> 0 ->
  UserProfile.isActive (getUserProfile s (msg_sender envP)) = true ->
  UserProfile.biometricCommitment (getUserProfile s (msg_sender envQ)) <> 0 ->
  UserProfile.isActive (getUserProfile s (msg_sender envQ)) = true ->
  exists s1 s2,
    submitMatchingProof envP c tP zP s = Ok (tt, s1)
    /\ getMatchingSession s1 c
       = MatchingSession.mk (msg_sender envP) c tP (block_timestamp envP) true
    /\ submitMatchingProof envQ c tQ zQ s1 = Ok (tt, s2)
    /\ getMatchingSession s2 c
       = MatchingSession.mk (msg_sender envQ) c tQ (block_timestamp envQ) true.
Proof.
  unfold getUserProfile, getMatchingSession.
  intros Hp Hc HregP HactP HregQ HactQ.
  eexists. eexists.
  split; [apply submitMatchingProof_ok; assumption|].
  split; [simpl_state; apply lookup_total_insert_eq|].
  split.
  - apply submitMatchingProof_ok; simpl_state; try assumption;
      rewrite lookup_total_insert; destruct (decide _); simpl_struct;
      try assumption; subst; congruence.
  - simpl_state. apply lookup_total_insert_eq.
Qed.

(** Address 2 takes over the session address 1 opened under commitment 5. *)
Lemma submitMatchingProof_overwrites_witness :
  exists s1 s2,
    submitMatchingProof (mkEnv 1 40) 5 300 no_signals registered = Ok (tt, s1)
    /\ MatchingSession.user (getMatchingSession s1 5) = 1
    /\ submitMatchingProof (mkEnv 2 41) 5 7 no_signals s1 = Ok (tt, s2)
    /\ getMatchingSession s2 5 = MatchingSession.mk 2 5 7 41 true.
Proof.
  destruct (submitMatchingProof_overwrites (mkEnv 1 40) (mkEnv 2 41) 5 300 7
              no_signals no_signals registered)
    as (s1 & s2 & H1 & Hs1 & H2 & Hs2);
    try (vm_compute; (reflexivity || discriminate)).
  exists s1, s2. rewrite Hs1. auto.
Defined.

(** * The pause gate *)

(** C9, as the contract behaves: on a paused contract the six
    state-changing calls below all fail and leave the storage unchanged,
    but [whenNotPaused] is the last modifier of every function except
    [registerUser], so the error is Paused only for a caller that passes
    the access modifiers written before it: the owner for
    [recordMutualMatch], [awardBonusAura] and [deductAura], a registered
    (and, for [submitMatchingProof], active) user for the other two. A
    caller that does not pass them gets their error instead. The five
    read-only queries carry no modifier and do not read the flag: on the
    paused contract each returns what it returns on the same storage with
    the flag cleared. *)
Theorem paused_calls_fail
    (keccak256_packed : address -> address -> uint256 -> bytes32) env s :
  contractPaused s = true ->
  let registered_ :=
    negb (UserProfile.biometricCommitment
            (getUserProfile s (msg_sender env)) =? 0) in
  let active := UserProfile.isActive (getUserProfile s (msg_sender env)) in
  let is_owner := msg_sender env =? owner s in
  (forall c p z, transact (registerUser env c p z) s = (s, Some Paused))
  /\ (forall h t z,
        transact (submitMatchingProof env h t z) s
        = (s, Some (if registered_
                    then if active then Paused else UserNotActive
                    else NotRegistered)))
  /\ (forall a b sc z,
        transact (recordMutualMatch keccak256_packed env a b sc z) s
        = (s, Some (if is_owner then Paused else Unauthorized)))
  /\ (forall i rc z,
        transact (initiateIdentityReveal keccak256_packed env i rc z) s
        = (s, Some (if registered_ then Paused else NotRegistered)))
  /\ (forall u n r,
        transact (awardBonusAura env u n r) s
        = (s, Some (if is_owner then Paused else Unauthorized)))
  /\ (forall u n r,
        transact (deductAura env u n r) s
        = (s, Some (if is_owner then Paused else Unauthorized)))
  /\ (forall u,
        getUserProfile s u = getUserProfile (set_contractPaused false s) u)
  /\ (forall h,
        getMatchingSession s h
        = getMatchingSession (set_contractPaused false s) h)
  /\ (forall i,
        getMutualMatch s i = getMutualMatch (set_contractPaused false s) i)
  /\ (forall a b,
        hasUserRevealed s a b
        = hasUserRevealed (set_contractPaused false s) a b)
  /\ getContractStats s = getContractStats (set_contractPaused false s).
Proof.
  intros Hp. unfold getUserProfile. cbv zeta.
  repeat split; intros;
    unfold registerUser, submitMatchingProof, recordMutualMatch,
      initiateIdentityReveal, awardBonusAura, deductAura; unfold_monad;
    try destruct (UserProfile.biometricCommitment
                    (userProfiles s !!! msg_sender env) =? 0);
    cbn [negb]; cbv beta iota;
    try destruct (UserProfile.isActive (userProfiles s !!! msg_sender env));
    cbv beta iota;
    try destruct (msg_sender env =? owner s);
    cbv beta iota; rewrite ?Hp; reflexivity.
Qed.

(** On the paused sample deployment the owner's [deductAura] fails with
    Paused, address 5, which is not registered, is told so, and the
    statistics still read two users. *)
Lemma paused_calls_fail_witness :
  transact (deductAura (mkEnv 9 50) 1 10 "spam") paused
  = (paused, Some Paused)
  /\ transact (submitMatchingProof (mkEnv 5 50) 3 0 no_signals) paused
     = (paused, Some NotRegistered)
  /\ getContractStats paused = (2, 0, 0).
Proof.
  pose proof (paused_calls_fail packed_id (mkEnv 9 50) paused eq_refl)
    as (_ & _ & _ & _ & _ & Hdeduct & _ & _ & _ & _ & Hstats).
  pose proof (paused_calls_fail packed_id (mkEnv 5 50) paused eq_refl)
    as (_ & Hsubmit & _).
  split; [apply Hdeduct|]. split; [apply Hsubmit|].
  rewrite Hstats. reflexivity.
Defined.

(** C9, as the specification words it, fails: an unregistered caller of
    [submitMatchingProof] on a paused contract is refused as not
    registered, not as paused. *)
Lemma paused_submitMatchingProof_not_Paused :
  contractPaused paused = true
  /\ transact (submitMatchingProof (mkEnv 5 50) 3 0 no_signals) paused
     = (paused, Some NotRegistered).
Proof. split; vm_compute; reflexivity. Qed.

(** * Mutual matches *)

Ltac simpl_lookup :=
  repeat first
    [ rewrite lookup_total_insert_eq
    | rewrite lookup_total_insert_ne by congruence
    | progress simpl_struct
    | progress simpl_state ].

(** The storage a successful [recordMutualMatch] leaves, field by field. *)
Lemma recordMutualMatch_Ok
    (keccak256_packed : address -> address -> uint256 -> bytes32)
    env a b score z s s' :
  recordMutualMatch keccak256_packed env a b score z s = Ok (tt, s') ->
  msg_sender env = owner s /\ contractPaused s = false /\ a <> b
  /\ UserProfile.isActive (userProfiles s !!! a) = true
  /\ UserProfile.isActive (userProfiles s !!! b) = true
  /\ score <= 100
  /\ userProfiles s' !!! a
     = UserProfile.set_totalMatches
         (UserProfile.totalMatches (userProfiles s !!! a) + 1)
         (UserProfile.set_auraPoints
            (UserProfile.auraPoints (userProfiles s !!! a) + MATCH_AURA)
            (userProfiles s !!! a))
  /\ userProfiles s' !!! b
     = UserProfile.set_totalMatches
         (UserProfile.totalMatches (userProfiles s !!! b) + 1)
         (UserProfile.set_auraPoints
            (UserProfile.auraPoints (userProfiles s !!! b) + MATCH_AURA)
            (userProfiles s !!! b))
  /\ (forall u, u <> a -> u <> b ->
        userProfiles s' !!! u = userProfiles s !!! u)
  /\ mutualMatches s'
     = <[keccak256_packed a b (block_timestamp env) :=
           MutualMatch.mk a b score (block_timestamp env) false false 0]>
         (mutualMatches s)
  /\ totalMatches s' = totalMatches s + 1
  /\ totalUsers s' = totalUsers s /\ totalReveals s' = totalReveals s
  /\ owner s' = owner s /\ contractPaused s' = contractPaused s
  /\ hasRevealed s' = hasRevealed s
  /\ matchingSessions s' = matchingSessions s.
Proof.
  intros H. unfold recordMutualMatch in H. unfold_monad_in H.
  on_guard H. on_guard H. on_guard H. on_guard H. on_guard H.
  simpl_state.
  on_guard H. simpl_state. on_guard H. simpl_state.
  on_guard H. simpl_state. on_guard H. simpl_state. on_guard H.
  inv_ok H. bool_norm. simpl_state.
  clear E4 E5 E6 E7 E8.
  repeat split; try assumption; try reflexivity.
  - simpl_lookup. reflexivity.
  - simpl_lookup. reflexivity.
  - intros u Ha Hb. simpl_lookup. reflexivity.
Qed.

(** [recordMutualMatch] succeeds when its guards hold and no counter is at
    the top of its range. *)
Lemma recordMutualMatch_succeeds
    (keccak256_packed : address -> address -> uint256 -> bytes32)
    env a b score z s :
  msg_sender env = owner s -> contractPaused s = false -> a <> b ->
  UserProfile.isActive (userProfiles s !!! a) = true ->
  UserProfile.isActive (userProfiles s !!! b) = true ->
  score <= 100 ->
  UserProfile.auraPoints (userProfiles s !!! a) + MATCH_AURA <= MAX_UINT256 ->
  UserProfile.auraPoints (userProfiles s !!! b) + MATCH_AURA <= MAX_UINT256 ->
  UserProfile.totalMatches (userProfiles s !!! a) + 1 <= MAX_UINT256 ->
  UserProfile.totalMatches (userProfiles s !!! b) + 1 <= MAX_UINT256 ->
  totalMatches s + 1 <= MAX_UINT256 ->
  exists s', recordMutualMatch keccak256_packed env a b score z s = Ok (tt, s').
Proof.
  intros Hown Hp Hab Ha Hb Hsc Haa Hab' Hta Htb Htm.
  unfold recordMutualMatch. unfold_monad.
  rewrite Hown, N.eqb_refl. cbv beta iota. rewrite Hp. cbn [negb].
  cbv beta iota. apply N.eqb_neq in Hab. rewrite Hab. cbn [negb].
  cbv beta iota. rewrite Ha, Hb. cbn [andb]. cbv beta iota.
  apply N.leb_le in Hsc. rewrite Hsc. cbv beta iota. simpl_state.
  apply N.eqb_neq in Hab.
  apply N.leb_le in Haa. rewrite Haa. cbv beta iota. simpl_state.
  simpl_lookup.
  apply N.leb_le in Hab'. rewrite Hab'. cbv beta iota. simpl_state.
  simpl_lookup.
  apply N.leb_le in Hta. rewrite Hta. cbv beta iota. simpl_state.
  simpl_lookup.
  apply N.leb_le in Htb. rewrite Htb. cbv beta iota. simpl_state.
  apply N.leb_le in Htm. rewrite Htm. cbv beta iota.
  eexists. reflexivity.
Qed.

(** C7: called by the owner on a contract that is not paused,
    [recordMutualMatch] fails when the two participants are the same
    address; otherwise fails with InactiveParticipant unless both are
    active; otherwise fails with InvalidScore unless the score is at most
    100. Whenever it succeeds, each participant has one more match and
    [MATCH_AURA] more Aura, and the global match counter is one higher; and
    it does succeed under these guards when no counter overflows. *)
Theorem recordMutualMatch_spec
    (keccak256_packed : address -> address -> uint256 -> bytes32)
    env a b score z s :
  msg_sender env = owner s ->
  contractPaused s = false ->
  let active_both :=
    UserProfile.isActive (getUserProfile s a)
    && UserProfile.isActive (getUserProfile s b) in
  let call := recordMutualMatch keccak256_packed env a b score z s in
  (a = b -> call = Revert CannotMatchWithSelf)
  /\ (a <> b -> active_both = false -> call = Revert InactiveParticipant)
  /\ (a <> b -> active_both = true -> 100 < score ->
      call = Revert InvalidScore)
  /\ (forall s', call = Ok (tt, s') ->
        UserProfile.totalMatches (getUserProfile s' a)
        = UserProfile.totalMatches (getUserProfile s a) + 1
        /\ UserProfile.auraPoints (getUserProfile s' a)
           = UserProfile.auraPoints (getUserProfile s a) + MATCH_AURA
        /\ UserProfile.totalMatches (getUserProfile s' b)
           = UserProfile.totalMatches (getUserProfile s b) + 1
        /\ UserProfile.auraPoints (getUserProfile s' b)
           = UserProfile.auraPoints (getUserProfile s b) + MATCH_AURA
        /\ totalMatches s' = totalMatches s + 1)
  /\ (a <> b -> active_both = true -> score <= 100 ->
      UserProfile.auraPoints (getUserProfile s a) + MATCH_AURA
      <= MAX_UINT256 ->
      UserProfile.auraPoints (getUserProfile s b) + MATCH_AURA
      <= MAX_UINT256 ->
      UserProfile.totalMatches (getUserProfile s a) + 1 <= MAX_UINT256 ->
      UserProfile.totalMatches (getUserProfile s b) + 1 <= MAX_UINT256 ->
      totalMatches s + 1 <= MAX_UINT256 ->
      exists s', call = Ok (tt, s')).
Proof.
  intros Hown Hp. cbv zeta. unfold getUserProfile.
  assert (Hgates : forall k : M unit,
            (onlyOwner env ;; whenNotPaused ;; k) s = k s).
  { intros k. unfold_monad. rewrite Hown, N.eqb_refl. cbv beta iota.
    rewrite Hp. reflexivity. }
  split; [|split; [|split; [|split]]].
  - intros ->. unfold recordMutualMatch. rewrite Hgates. unfold_monad.
    rewrite N.eqb_refl. reflexivity.
  - intros Hab Hact. unfold recordMutualMatch. rewrite Hgates.
    unfold_monad. apply N.eqb_neq in Hab. rewrite Hab. cbn [negb].
    cbv beta iota. rewrite Hact. reflexivity.
  - intros Hab Hact Hsc. unfold recordMutualMatch. rewrite Hgates.
    unfold_monad. apply N.eqb_neq in Hab. rewrite Hab. cbn [negb].
    cbv beta iota. rewrite Hact. cbv beta iota.
    apply N.leb_gt in Hsc. rewrite Hsc. reflexivity.
  - intros s' H. apply recordMutualMatch_Ok in H.
    destruct H as (_ & _ & _ & _ & _ & _ & Ha & Hb & _ & _ & Htm & _).
    rewrite Ha, Hb. simpl_struct. auto.
  - intros Hab Hact. apply andb_true_iff in Hact as [Ha Hb].
    intros. apply recordMutualMatch_succeeds; assumption.
Qed.

(** The owner matches addresses 1 and 2 of the sample deployment. *)
Lemma recordMutualMatch_spec_witness :
  UserProfile.auraPoints (getUserProfile matched 1)
  = UserProfile.auraPoints (getUserProfile registered 1) + MATCH_AURA
  /\ totalMatches matched = totalMatches registered + 1
  /\ recordMutualMatch packed_id (mkEnv 9 1000) 1 1 80 no_signals registered
     = Revert CannotMatchWithSelf.
Proof.
  destruct (recordMutualMatch_spec packed_id (mkEnv 9 1000) 1 2 80
              no_signals registered eq_refl eq_refl)
    as (_ & _ & _ & Hok & _).
  destruct (Hok matched) as (_ & Ha & _ & _ & Htm);
    [vm_compute; reflexivity|].
  split; [exact Ha|]. split; [exact Htm|]. reflexivity.
Defined.

(** * Identity reveal *)

Lemma match_lookup_insert (m : gmap bytes32 MutualMatch.t) i x :
  <[i := x]> m !!! i = x.
Proof. apply lookup_total_insert_eq. Qed.

Lemma initiateIdentityReveal_Ok
    (keccak256_packed : address -> address -> uint256 -> bytes32)
    env matchId rc z s s' u1 u2 sc ts r1 r2 rts :
  mutualMatches s !!! matchId = MutualMatch.mk u1 u2 sc ts r1 r2 rts ->
  initiateIdentityReveal keccak256_packed env matchId rc z s = Ok (tt, s') ->
  let r1' := if u1 =? msg_sender env then true else r1 in
  let r2' := if u1 =? msg_sender env then r2 else true in
  contractPaused s = false
  /\ UserProfile.biometricCommitment (userProfiles s !!! msg_sender env) <> 0
  /\ (u1 = msg_sender env \/ u2 = msg_sender env)
  /\ 0 < ts
  /\ mutualMatches s'
     = <[matchId :=
           MutualMatch.mk u1 u2 sc ts r1' r2'
             (if r1' && r2' then block_timestamp env else rts)]>
         (mutualMatches s)
  /\ hasRevealed s'
     = <[(msg_sender env,
          if matchId =? keccak256_packed u1 u2 ts then u1 else u2) := true]>
         (hasRevealed s)
  /\ totalReveals s'
     = (if r1' && r2' then totalReveals s + 1 else totalReveals s)
  /\ (r1' && r2' = false ->
      userProfiles s' = userProfiles s /\ events s' = events s)
  /\ (r1' && r2' = true -> u1 <> u2 ->
      userProfiles s' !!! u1
      = UserProfile.set_totalReveals
          (UserProfile.totalReveals (userProfiles s !!! u1) + 1)
          (UserProfile.set_auraPoints
             (UserProfile.auraPoints (userProfiles s !!! u1) + REVEAL_AURA)
             (userProfiles s !!! u1))
      /\ userProfiles s' !!! u2
         = UserProfile.set_totalReveals
             (UserProfile.totalReveals (userProfiles s !!! u2) + 1)
             (UserProfile.set_auraPoints
                (UserProfile.auraPoints (userProfiles s !!! u2) + REVEAL_AURA)
                (userProfiles s !!! u2)))
  /\ (forall u, u <> u1 -> u <> u2 ->
      userProfiles s' !!! u = userProfiles s !!! u)
  /\ owner s' = owner s /\ contractPaused s' = contractPaused s
  /\ totalUsers s' = totalUsers s /\ totalMatches s' = totalMatches s
  /\ matchingSessions s' = matchingSessions s.
Proof.
  intros Hm H. unfold initiateIdentityReveal in H. unfold_monad_in H.
  on_guard H. on_guard H. rewrite Hm in H. simpl_struct.
  on_guard H. on_guard H.
  cbv zeta.
  assert (Hpart : u1 = msg_sender env \/ u2 = msg_sender env).
  { apply orb_true_iff in E1 as [?|?]; bool_norm; auto. }
  clear E1. bool_norm.
  destruct (u1 =? msg_sender env) eqn:E1; simpl_state;
    rewrite !match_lookup_insert in H; rewrite ?Hm in H; simpl_struct.
  - destruct r2; cbn [andb] in *.
    + simpl_state. rewrite ?match_lookup_insert in H. simpl_struct.
      on_guard H. simpl_state. on_guard H. simpl_state.
      on_guard H. simpl_state. on_guard H. simpl_state.
      on_guard H. inv_ok H. simpl_state.
      clear E3 E4 E5 E6 E7.
      rewrite ?match_lookup_insert, ?Hm. simpl_struct.
      rewrite insert_insert_eq.
      repeat split; try assumption; try reflexivity; try discriminate.
      * simpl_lookup. reflexivity.
      * simpl_lookup. reflexivity.
      * intros. simpl_lookup. reflexivity.
    + simpl_state. rewrite ?match_lookup_insert in H. simpl_struct.
      inv_ok H. simpl_state. rewrite ?match_lookup_insert, ?Hm. simpl_struct.
      repeat split; try assumption; try reflexivity; try discriminate.
  - destruct r1; cbn [andb] in *.
    + simpl_state. rewrite ?match_lookup_insert in H. simpl_struct.
      on_guard H. simpl_state. on_guard H. simpl_state.
      on_guard H. simpl_state. on_guard H. simpl_state.
      on_guard H. inv_ok H. simpl_state.
      clear E3 E4 E5 E6 E7.
      rewrite ?match_lookup_insert, ?Hm. simpl_struct.
      rewrite insert_insert_eq.
      repeat split; try assumption; try reflexivity; try discriminate.
      * simpl_lookup. reflexivity.
      * simpl_lookup. reflexivity.
      * intros. simpl_lookup. reflexivity.
    + simpl_state. rewrite ?match_lookup_insert in H. simpl_struct.
      inv_ok H. simpl_state. rewrite ?match_lookup_insert, ?Hm. simpl_struct.
      repeat split; try assumption; try reflexivity; try discriminate.
Qed.

(** C1: the reward of the reveal flow is not paid exactly once. On a match
    whose two reveal flags are already set, every further successful
    [initiateIdentityReveal] credits [REVEAL_AURA] to both participants
    again, stamps [revealTimestamp] anew with the time of the call and
    counts one more reveal: the reward block is guarded by the two flags
    only. *)
Theorem reveal_rewards_again
    (keccak256_packed : address -> address -> uint256 -> bytes32)
    env matchId rc z s s' :
  let m := getMutualMatch s matchId in
  MutualMatch.user1Revealed m = true ->
  MutualMatch.user2Revealed m = true ->
  MutualMatch.user1 m <> MutualMatch.user2 m ->
  initiateIdentityReveal keccak256_packed env matchId rc z s = Ok (tt, s') ->
  UserProfile.auraPoints (getUserProfile s' (MutualMatch.user1 m))
  = UserProfile.auraPoints (getUserProfile s (MutualMatch.user1 m))
    + REVEAL_AURA
  /\ UserProfile.auraPoints (getUserProfile s' (MutualMatch.user2 m))
     = UserProfile.auraPoints (getUserProfile s (MutualMatch.user2 m))
       + REVEAL_AURA
  /\ MutualMatch.revealTimestamp (getMutualMatch s' matchId)
     = block_timestamp env
  /\ totalReveals s' = totalReveals s + 1.
Proof.
  unfold getMutualMatch, getUserProfile. cbv zeta.
  destruct (mutualMatches s !!! matchId) as [u1 u2 sc ts r1 r2 rts] eqn:Hm.
  simpl_struct. intros -> -> Hne H.
  apply (initiateIdentityReveal_Ok _ _ _ _ _ _ _ _ _ _ _ _ _ _ Hm) in H.
  cbv zeta in H.
  assert (Hc : (if u1 =? msg_sender env then true else true)
               && (if u1 =? msg_sender env then true else true) = true)
    by (destruct (u1 =? msg_sender env); reflexivity).
  rewrite Hc in H.
  destruct H as (_ & _ & _ & _ & Hmm & _ & Htr & _ & Hprof & _).
  destruct (Hprof eq_refl Hne) as [Hp1 Hp2].
  rewrite Hp1, Hp2, Hmm, match_lookup_insert. simpl_struct. auto.
Qed.

(** Address 1 reveals a second time once both have revealed: its balance
    goes from 325 to 475. *)
Lemma reveal_rewards_again_witness :
  UserProfile.auraPoints (getUserProfile both_revealed 1) = 325
  /\ UserProfile.auraPoints
       (getUserProfile
          (step packed_id (mkEnv 1 2002)
             (InitiateIdentityReveal sample_matchId [] no_signals)
             both_revealed) 1)
     = 475.
Proof.
  assert (Hu : MutualMatch.user1 (getMutualMatch both_revealed sample_matchId)
               = 1) by (vm_compute; reflexivity).
  assert (H1 : MutualMatch.user1Revealed
                 (getMutualMatch both_revealed sample_matchId) = true)
    by (vm_compute; reflexivity).
  assert (H2 : MutualMatch.user2Revealed
                 (getMutualMatch both_revealed sample_matchId) = true)
    by (vm_compute; reflexivity).
  assert (H3 : MutualMatch.user1 (getMutualMatch both_revealed sample_matchId)
               <> MutualMatch.user2
                    (getMutualMatch both_revealed sample_matchId))
    by (vm_compute; discriminate).
  assert (H4 : initiateIdentityReveal packed_id (mkEnv 1 2002) sample_matchId
                 [] no_signals both_revealed
               = Ok (tt, step packed_id (mkEnv 1 2002)
                           (InitiateIdentityReveal sample_matchId []
                              no_signals) both_revealed))
    by (vm_compute; reflexivity).
  pose proof (reveal_rewards_again packed_id _ _ _ _ _ _ H1 H2 H3 H4) as H.
  cbv zeta in H. destruct H as (Ha & _).
  rewrite Hu in Ha. rewrite Ha. split; vm_compute; reflexivity.
Defined.

(** C2: a second [initiateIdentityReveal] by the same principal is not
    always a no-op. When the counterpart had revealed before the
    principal's first call, that first call completes the reveal, and the
    principal's second call pays [REVEAL_AURA] to both participants again,
    counts another reveal and moves [revealTimestamp] to its own time. *)
Theorem second_reveal_rewards_again
    (keccak256_packed : address -> address -> uint256 -> bytes32)
    env1 env2 matchId rc1 z1 rc2 z2 s s1 s2 :
  let m := getMutualMatch s matchId in
  msg_sender env2 = msg_sender env1 ->
  MutualMatch.user1 m <> MutualMatch.user2 m ->
  (if MutualMatch.user1 m =? msg_sender env1
   then MutualMatch.user2Revealed m
   else MutualMatch.user1Revealed m) = true ->
  initiateIdentityReveal keccak256_packed env1 matchId rc1 z1 s
  = Ok (tt, s1) ->
  initiateIdentityReveal keccak256_packed env2 matchId rc2 z2 s1
  = Ok (tt, s2) ->
  UserProfile.auraPoints (getUserProfile s2 (msg_sender env1))
  = UserProfile.auraPoints (getUserProfile s1 (msg_sender env1))
    + REVEAL_AURA
  /\ totalReveals s2 = totalReveals s1 + 1
  /\ MutualMatch.revealTimestamp (getMutualMatch s2 matchId)
     = block_timestamp env2.
Proof.
  unfold getMutualMatch, getUserProfile. cbv zeta.
  destruct (mutualMatches s !!! matchId) as [u1 u2 sc ts r1 r2 rts] eqn:Hm.
  simpl_struct. intros Hsender Hne Hother H1 H2.
  apply (initiateIdentityReveal_Ok _ _ _ _ _ _ _ _ _ _ _ _ _ _ Hm) in H1.
  cbv zeta in H1.
  destruct H1 as (_ & _ & Hpart & _ & Hm1 & _).
  assert (Hm1' := f_equal (fun mm => mm !!! matchId) Hm1).
  cbv beta in Hm1'. rewrite match_lookup_insert in Hm1'.
  apply (initiateIdentityReveal_Ok _ _ _ _ _ _ _ _ _ _ _ _ _ _ Hm1') in H2.
  cbv zeta in H2. rewrite Hsender in H2.
  assert (Hc : (if u1 =? msg_sender env1 then true
                else if u1 =? msg_sender env1 then true else r1)
               && (if u1 =? msg_sender env1
                   then if u1 =? msg_sender env1 then r2 else true
                   else true) = true)
    by (destruct (u1 =? msg_sender env1); rewrite Hother; reflexivity).
  rewrite Hc in H2.
  destruct H2 as (_ & _ & _ & _ & Hm2 & _ & Htr & _ & Hprof & _).
  destruct (Hprof eq_refl Hne) as [Hp1 Hp2].
  rewrite Hm2, match_lookup_insert. simpl_struct.
  split; [|auto].
  destruct Hpart as [<-|<-]; [rewrite Hp1|rewrite Hp2]; reflexivity.
Qed.

(** Address 2 reveals first; address 1 then reveals twice, and its second
    call takes its balance from 325 to 475. *)
Lemma second_reveal_rewards_again_witness :
  UserProfile.auraPoints
    (getUserProfile
       (run packed_id
          [ (mkEnv 1 2001,
             InitiateIdentityReveal sample_matchId [] no_signals);
            (mkEnv 1 2002,
             InitiateIdentityReveal sample_matchId [] no_signals) ]
          second_revealed) 1)
  = 475.
Proof.
  pose (s1 := step packed_id (mkEnv 1 2001)
                (InitiateIdentityReveal sample_matchId [] no_signals)
                second_revealed).
  pose (s2 := step packed_id (mkEnv 1 2002)
                (InitiateIdentityReveal sample_matchId [] no_signals) s1).
  assert (H1 : MutualMatch.user1 (getMutualMatch second_revealed sample_matchId)
               <> MutualMatch.user2
                    (getMutualMatch second_revealed sample_matchId))
    by (vm_compute; discriminate).
  assert (H2 : (if MutualMatch.user1
                     (getMutualMatch second_revealed sample_matchId)
                   =? msg_sender (mkEnv 1 2001)
                then MutualMatch.user2Revealed
                       (getMutualMatch second_revealed sample_matchId)
                else MutualMatch.user1Revealed
                       (getMutualMatch second_revealed sample_matchId))
               = true) by (vm_compute; reflexivity).
  assert (H3 : initiateIdentityReveal packed_id (mkEnv 1 2001) sample_matchId
                 [] no_signals second_revealed = Ok (tt, s1))
    by (vm_compute; reflexivity).
  assert (H4 : initiateIdentityReveal packed_id (mkEnv 1 2002) sample_matchId
                 [] no_signals s1 = Ok (tt, s2))
    by (vm_compute; reflexivity).
  pose proof (second_reveal_rewards_again packed_id (mkEnv 1 2001)
                (mkEnv 1 2002) sample_matchId [] no_signals [] no_signals
                second_revealed s1 s2 eq_refl H1 H2 H3 H4) as H.
  cbv zeta in H. destruct H as (Ha & _).
  change (run packed_id _ second_revealed) with s2.
  change (msg_sender (mkEnv 1 2001)) with 1 in Ha.
  rewrite Ha. vm_compute. reflexivity.
Defined.

(** C4: the reveal is not recorded under the pair (revealer, counterpart).
    For a match stored under the digest of its participants and timestamp,
    as [recordMutualMatch] stores every match, a successful
    [initiateIdentityReveal] sets [hasRevealed[caller][user1]] and no other
    entry. So when user1 reveals, [hasUserRevealed(user1, user2)] keeps the
    value it had, and it is [hasUserRevealed(user1, user1)] that becomes
    true; only user2's reveal is recorded towards its counterpart. *)
Theorem reveal_marks_user1
    (keccak256_packed : address -> address -> uint256 -> bytes32)
    env matchId rc z s s' :
  let m := getMutualMatch s matchId in
  matchId
  = keccak256_packed (MutualMatch.user1 m) (MutualMatch.user2 m)
      (MutualMatch.matchTimestamp m) ->
  initiateIdentityReveal keccak256_packed env matchId rc z s = Ok (tt, s') ->
  hasUserRevealed s' (msg_sender env) (MutualMatch.user1 m) = true
  /\ (forall a b,
        (a, b) <> (msg_sender env, MutualMatch.user1 m) ->
        hasUserRevealed s' a b = hasUserRevealed s a b).
Proof.
  unfold getMutualMatch, hasUserRevealed. cbv zeta.
  destruct (mutualMatches s !!! matchId) as [u1 u2 sc ts r1 r2 rts] eqn:Hm.
  simpl_struct. intros Hid H.
  apply (initiateIdentityReveal_Ok _ _ _ _ _ _ _ _ _ _ _ _ _ _ Hm) in H.
  cbv zeta in H.
  destruct H as (_ & _ & _ & _ & _ & Hrev & _).
  rewrite <- Hid, N.eqb_refl in Hrev. rewrite Hrev. split.
  - rewrite lookup_insert_eq. reflexivity.
  - intros a b Hab. rewrite lookup_insert_ne by congruence. reflexivity.
Qed.

(** Address 1, user1 of the sample match, reveals: the entry towards
    address 2 stays unset. *)
Lemma reveal_marks_user1_witness :
  hasUserRevealed first_revealed 1 1 = true
  /\ hasUserRevealed first_revealed 1 2 = hasUserRevealed matched 1 2
  /\ hasUserRevealed matched 1 2 = false.
Proof.
  assert (H1 : sample_matchId
               = packed_id
                   (MutualMatch.user1 (getMutualMatch matched sample_matchId))
                   (MutualMatch.user2 (getMutualMatch matched sample_matchId))
                   (MutualMatch.matchTimestamp
                      (getMutualMatch matched sample_matchId)))
    by (vm_compute; reflexivity).
  assert (H2 : initiateIdentityReveal packed_id (mkEnv 1 2000) sample_matchId
                 [] no_signals matched = Ok (tt, first_revealed))
    by (vm_compute; reflexivity).
  pose proof (reveal_marks_user1 packed_id (mkEnv 1 2000) sample_matchId []
                no_signals matched first_revealed H1 H2) as H.
  cbv zeta in H. destruct H as (Ha & Hb).
  assert (Hu : MutualMatch.user1 (getMutualMatch matched sample_matchId) = 1)
    by (vm_compute; reflexivity).
  rewrite Hu in Ha, Hb. change (msg_sender (mkEnv 1 2000)) with 1 in Ha, Hb.
  split; [exact Ha|]. split; [apply Hb; discriminate|].
  vm_compute. reflexivity.
Defined.

(** C5: the participant check comes before the existence check, so a
    registered caller on a contract that is not paused who is neither
    [user1] nor [user2] of the entry read at [matchId] is refused with
    NotParticipant; for a [matchId] under which nothing is stored the entry
    reads as zero, and every caller other than the zero address gets
    NotParticipant, not NotFound. *)
Theorem reveal_unknown_match_NotParticipant
    (keccak256_packed : address -> address -> uint256 -> bytes32)
    env matchId rc z s :
  contractPaused s = false ->
  UserProfile.biometricCommitment (getUserProfile s (msg_sender env)) <> 0 ->
  (MutualMatch.user1 (getMutualMatch s matchId) <> msg_sender env ->
   MutualMatch.user2 (getMutualMatch s matchId) <> msg_sender env ->
   transact (initiateIdentityReveal keccak256_packed env matchId rc z) s
   = (s, Some NotParticipant))
  /\ (mutualMatches s !! matchId = None ->
      msg_sender env <> 0 ->
      transact (initiateIdentityReveal keccak256_packed env matchId rc z) s
      = (s, Some NotParticipant)).
Proof.
  unfold getUserProfile, getMutualMatch. intros Hp Hreg.
  assert (Hgen :
    MutualMatch.user1 (mutualMatches s !!! matchId) <> msg_sender env ->
    MutualMatch.user2 (mutualMatches s !!! matchId) <> msg_sender env ->
    transact (initiateIdentityReveal keccak256_packed env matchId rc z) s
    = (s, Some NotParticipant)).
  { intros H1 H2. unfold initiateIdentityReveal. unfold_monad.
    apply N.eqb_neq in Hreg, H1, H2. rewrite Hreg. cbn [negb].
    cbv beta iota. rewrite Hp. cbn [negb]. cbv beta iota.
    rewrite H1, H2. reflexivity. }
  split; [exact Hgen|].
  intros Hnone Hsender. apply Hgen;
    rewrite lookup_total_alt, Hnone; cbn; congruence.
Qed.

(** Address 1 asks to reveal on identifier 77, which names no match. *)
Lemma reveal_unknown_match_NotParticipant_witness :
  transact (initiateIdentityReveal packed_id (mkEnv 1 3000) 77 [] no_signals)
    matched
  = (matched, Some NotParticipant).
Proof.
  assert (H1 : contractPaused matched = false) by (vm_compute; reflexivity).
  assert (H2 : UserProfile.biometricCommitment
                 (getUserProfile matched (msg_sender (mkEnv 1 3000))) <> 0)
    by (vm_compute; discriminate).
  assert (H3 : mutualMatches matched !! 77 = None)
    by (vm_compute; reflexivity).
  assert (H4 : msg_sender (mkEnv 1 3000) <> 0) by (vm_compute; discriminate).
  exact (proj2 (reveal_unknown_match_NotParticipant packed_id (mkEnv 1 3000)
                  77 [] no_signals matched H1 H2) H3 H4).
Defined.

(** * The remaining entry points: what a successful call leaves *)

Lemma profile_lookup_insert (m : gmap address UserProfile.t) a x :
  <[a := x]> m !!! a = x.
Proof. apply lookup_total_insert_eq. Qed.

Lemma profile_insert_insert (m : gmap address UserProfile.t) a x y :
  <[a := x]> (<[a := y]> m) = <[a := x]> m.
Proof. apply insert_insert_eq. Qed.

Lemma registerUser_Ok env c p z s s' :
  registerUser env c p z s = Ok (tt, s') ->
  contractPaused s = false
  /\ UserProfile.biometricCommitment (userProfiles s !!! msg_sender env) = 0
  /\ c <> 0
  /\ s' = set_events
            (events s
             ++ [UserRegistered (msg_sender env) c (block_timestamp env);
                 AuraPointsAwarded (msg_sender env) REGISTRATION_AURA
                   "Registration"])
            (set_totalUsers (totalUsers s + 1)
               (set_userProfiles
                  (<[msg_sender env :=
                       UserProfile.mk c p REGISTRATION_AURA
                         (block_timestamp env) (block_timestamp env)
                         true false 0 0]> (userProfiles s)) s)).
Proof.
  intros H. unfold registerUser in H. unfold_monad_in H.
  on_guard H. on_guard H. on_guard H. on_guard H. inv_ok H. bool_norm.
  simpl_state. rewrite <- app_assoc. auto.
Qed.

Lemma updatePreferences_Ok env h z s s' :
  updatePreferences env h z s = Ok (tt, s') ->
  contractPaused s = false
  /\ UserProfile.biometricCommitment (userProfiles s !!! msg_sender env) <> 0
  /\ h <> 0
  /\ s' = set_userProfiles
            (<[msg_sender env :=
                 UserProfile.set_lastActiveTimestamp (block_timestamp env)
                   (UserProfile.set_preferencesHash h
                      (userProfiles s !!! msg_sender env))]>
               (userProfiles s)) s.
Proof.
  intros H. unfold updatePreferences in H. unfold_monad_in H.
  on_guard H. on_guard H. on_guard H. inv_ok H. bool_norm.
  simpl_state. rewrite profile_lookup_insert, profile_insert_insert. auto.
Qed.

Lemma submitMatchingProof_Ok env c t z s s' :
  submitMatchingProof env c t z s = Ok (tt, s') ->
  contractPaused s = false
  /\ UserProfile.biometricCommitment (userProfiles s !!! msg_sender env) <> 0
  /\ UserProfile.isActive (userProfiles s !!! msg_sender env) = true
  /\ c <> 0
  /\ s' = set_events
            (events s
             ++ [MatchProofSubmitted (msg_sender env) c (block_timestamp env)])
            (set_userProfiles
               (<[msg_sender env :=
                    UserProfile.set_lastActiveTimestamp (block_timestamp env)
                      (userProfiles s !!! msg_sender env)]> (userProfiles s))
               (set_matchingSessions
                  (<[c := MatchingSession.mk (msg_sender env) c t
                            (block_timestamp env) true]>
                     (matchingSessions s)) s)).
Proof.
  intros H. unfold submitMatchingProof in H. unfold_monad_in H.
  on_guard H. on_guard H. on_guard H. on_guard H. inv_ok H. bool_norm.
  simpl_state. auto.
Qed.

Lemma awardBonusAura_Ok env u n r s s' :
  awardBonusAura env u n r s = Ok (tt, s') ->
  msg_sender env = owner s /\ contractPaused s = false
  /\ UserProfile.biometricCommitment (userProfiles s !!! u) <> 0
  /\ UserProfile.auraPoints (userProfiles s !!! u) + n <= MAX_UINT256
  /\ s' = set_events (events s ++ [AuraPointsAwarded u n r])
            (set_userProfiles
               (<[u := UserProfile.set_auraPoints
                         (UserProfile.auraPoints (userProfiles s !!! u) + n)
                         (userProfiles s !!! u)]> (userProfiles s)) s).
Proof.
  intros H. unfold awardBonusAura in H. unfold_monad_in H.
  on_guard H. on_guard H. on_guard H. on_guard H. inv_ok H. bool_norm.
  simpl_state. auto.
Qed.

Lemma deductAura_Ok env u n r s s' :
  deductAura env u n r s = Ok (tt, s') ->
  msg_sender env = owner s /\ contractPaused s = false
  /\ UserProfile.biometricCommitment (userProfiles s !!! u) <> 0
  /\ s' = set_events (events s ++ [AuraPointsDeducted u n r])
            (set_userProfiles
               (<[u := UserProfile.set_auraPoints
                         (UserProfile.auraPoints (userProfiles s !!! u) - n)
                         (userProfiles s !!! u)]> (userProfiles s)) s).
Proof.
  intros H. unfold deductAura in H. unfold_monad_in H.
  on_guard H. on_guard H. on_guard H.
  destruct (N.leb_spec n (UserProfile.auraPoints (userProfiles s !!! u)))
    as [Hle|Hlt]; cbv beta iota in H; inv_ok H; bool_norm; simpl_state.
  - auto.
  - replace (UserProfile.auraPoints (userProfiles s !!! u) - n) with 0 by lia.
    auto.
Qed.

Lemma setActiveStatus_Ok env b s s' :
  setActiveStatus env b s = Ok (tt, s') ->
  contractPaused s = false
  /\ UserProfile.biometricCommitment (userProfiles s !!! msg_sender env) <> 0
  /\ s' = set_userProfiles
            (<[msg_sender env :=
                 UserProfile.set_lastActiveTimestamp (block_timestamp env)
                   (UserProfile.set_isActive b
                      (userProfiles s !!! msg_sender env))]>
               (userProfiles s)) s.
Proof.
  intros H. unfold setActiveStatus in H. unfold_monad_in H.
  on_guard H. on_guard H. inv_ok H. bool_norm.
  simpl_state. rewrite profile_lookup_insert, profile_insert_insert. auto.
Qed.

Lemma verifyUser_Ok env u s s' :
  verifyUser env u s = Ok (tt, s') ->
  msg_sender env = owner s /\ contractPaused s = false
  /\ UserProfile.biometricCommitment (userProfiles s !!! u) <> 0
  /\ UserProfile.auraPoints (userProfiles s !!! u) + VERIFICATION_AURA
     <= MAX_UINT256
  /\ s' = set_events
            (events s
             ++ [AuraPointsAwarded u VERIFICATION_AURA "Profile Verification"])
            (set_userProfiles
               (<[u := UserProfile.set_auraPoints
                         (UserProfile.auraPoints (userProfiles s !!! u)
                          + VERIFICATION_AURA)
                         (UserProfile.set_isVerified true
                            (userProfiles s !!! u))]> (userProfiles s)) s).
Proof.
  intros H. unfold verifyUser in H. unfold_monad_in H.
  on_guard H. on_guard H. on_guard H. simpl_state.
  rewrite profile_lookup_insert in H. simpl_struct.
  on_guard H. inv_ok H. bool_norm.
  simpl_state. rewrite profile_lookup_insert, profile_insert_insert. auto.
Qed.

Lemma setPaused_Ok env b s s' :
  setPaused env b s = Ok (tt, s') ->
  msg_sender env = owner s /\ s' = set_contractPaused b s.
Proof.
  intros H. unfold setPaused in H. unfold_monad_in H.
  on_guard H. inv_ok H. bool_norm. auto.
Qed.

Lemma transferOwnership_Ok env o s s' :
  transferOwnership env o s = Ok (tt, s') ->
  msg_sender env = owner s /\ o <> 0 /\ s' = set_owner o s.
Proof.
  intros H. unfold transferOwnership in H. unfold_monad_in H.
  on_guard H. on_guard H. inv_ok H. bool_norm. auto.
Qed.

(** * Access control *)

(** A transaction either reverts, leaving the storage as it was, or its
    call returned and the storage is what the call left. *)
Lemma step_cases
    (keccak256_packed : address -> address -> uint256 -> bytes32) env c s :
  step keccak256_packed env c s = s
  \/ dispatch keccak256_packed env c s
     = Ok (tt, step keccak256_packed env c s).
Proof.
  unfold step, transact.
  destruct (dispatch keccak256_packed env c s) as [[[] s']|e]; auto.
Qed.

(** X1: every function under [onlyOwner] refuses a caller that is not the
    owner with "Only owner can call this function", whatever its arguments
    and whether or not the contract is paused, and changes nothing. *)
Theorem onlyOwner_refuses_others
    (keccak256_packed : address -> address -> uint256 -> bytes32) env s :
  msg_sender env <> owner s ->
  (forall a b sc z,
     transact (recordMutualMatch keccak256_packed env a b sc z) s
     = (s, Some OnlyOwner))
  /\ (forall u n r,
        transact (awardBonusAura env u n r) s = (s, Some OnlyOwner))
  /\ (forall u n r, transact (deductAura env u n r) s = (s, Some OnlyOwner))
  /\ (forall u, transact (verifyUser env u) s = (s, Some OnlyOwner))
  /\ (forall b, transact (setPaused env b) s = (s, Some OnlyOwner))
  /\ (forall o, transact (transferOwnership env o) s = (s, Some OnlyOwner)).
Proof.
  intros Hne. apply N.eqb_neq in Hne.
  repeat split; intros;
    unfold recordMutualMatch, awardBonusAura, deductAura, verifyUser,
      setPaused, transferOwnership; unfold_monad; rewrite Hne; reflexivity.
Qed.

(** Address 1 is not the owner of the sample deployment. *)
Lemma onlyOwner_refuses_others_witness :
  transact (setPaused (mkEnv 1 50) true) registered
  = (registered, Some OnlyOwner)
  /\ transact (awardBonusAura (mkEnv 1 50) 1 1000 "gift") registered
     = (registered, Some OnlyOwner).
Proof.
  assert (H : msg_sender (mkEnv 1 50) <> owner registered)
    by (vm_compute; discriminate).
  pose proof (onlyOwner_refuses_others packed_id (mkEnv 1 50) registered H)
    as (_ & Haward & _ & _ & Hpause & _).
  split; [apply Hpause | apply Haward].
Defined.

(** X2: every function under [onlyRegisteredUser] refuses a caller without
    a profile with "User not registered", paused or not, and changes
    nothing. *)
Theorem onlyRegisteredUser_refuses_others
    (keccak256_packed : address -> address -> uint256 -> bytes32) env s :
  UserProfile.biometricCommitment (getUserProfile s (msg_sender env)) = 0 ->
  (forall h z,
     transact (updatePreferences env h z) s = (s, Some UserNotRegistered))
  /\ (forall h t z,
        transact (submitMatchingProof env h t z) s
        = (s, Some UserNotRegistered))
  /\ (forall i rc z,
        transact (initiateIdentityReveal keccak256_packed env i rc z) s
        = (s, Some UserNotRegistered))
  /\ (forall b,
        transact (setActiveStatus env b) s = (s, Some UserNotRegistered)).
Proof.
  unfold getUserProfile. intros Hz.
  repeat split; intros;
    unfold updatePreferences, submitMatchingProof, initiateIdentityReveal,
      setActiveStatus; unfold_monad; rewrite Hz; reflexivity.
Qed.

(** Address 5 has no profile in the sample deployment. *)
Lemma onlyRegisteredUser_refuses_others_witness :
  transact (setActiveStatus (mkEnv 5 50) true) registered
  = (registered, Some UserNotRegistered).
Proof.
  assert (H : UserProfile.biometricCommitment
                (getUserProfile registered (msg_sender (mkEnv 5 50))) = 0)
    by (vm_compute; reflexivity).
  apply (onlyRegisteredUser_refuses_others packed_id (mkEnv 5 50) registered
           H).
Defined.

(** X3: over all entry points, the owner changes only through a
    [transferOwnership] sent by the current owner, to a non-zero address,
    and the pause flag only through a [setPaused] sent by the current
    owner. *)
Theorem admin_fields_change_only_by_owner
    (keccak256_packed : address -> address -> uint256 -> bytes32) env c s :
  (owner (step keccak256_packed env c s) = owner s
   \/ (msg_sender env = owner s
       /\ exists o, c = TransferOwnership o /\ o <> 0
                    /\ owner (step keccak256_packed env c s) = o))
  /\ (contractPaused (step keccak256_packed env c s) = contractPaused s
      \/ (msg_sender env = owner s
          /\ exists b, c = SetPaused b
                       /\ contractPaused (step keccak256_packed env c s)
                          = b)).
Proof.
  destruct (step_cases keccak256_packed env c s) as [->|H]; [auto|].
  revert H. generalize (step keccak256_packed env c s) as s'. intros s' H.
  destruct c; cbn [dispatch] in H.
  - apply registerUser_Ok in H as (_ & _ & _ & ->). auto.
  - apply updatePreferences_Ok in H as (_ & _ & _ & ->). auto.
  - apply submitMatchingProof_Ok in H as (_ & _ & _ & _ & ->). auto.
  - apply recordMutualMatch_Ok in H. intuition auto.
  - destruct (mutualMatches s !!! matchId) as [u1 u2 sc ts r1 r2 rts] eqn:Hm.
    apply (initiateIdentityReveal_Ok _ _ _ _ _ _ _ _ _ _ _ _ _ _ Hm) in H.
    cbv zeta in H. intuition auto.
  - apply awardBonusAura_Ok in H as (_ & _ & _ & _ & ->). auto.
  - apply deductAura_Ok in H as (_ & _ & _ & ->). auto.
  - apply setActiveStatus_Ok in H as (_ & _ & ->). auto.
  - apply verifyUser_Ok in H as (_ & _ & _ & _ & ->). auto.
  - apply setPaused_Ok in H as (Hown & ->). split; [auto|].
    right. split; [assumption|]. eexists. split; reflexivity.
  - apply transferOwnership_Ok in H as (Hown & Ho & ->). split; [|auto].
    right. split; [assumption|]. eexists. repeat split. assumption.
Qed.

(** * Profiles *)

(** X4: for a registered caller on a contract that is not paused,
    [updatePreferences] refuses the zero hash with "Invalid preferences
    hash"; any other hash (the proof is not examined) replaces
    [preferencesHash], stamps [lastActiveTimestamp], and leaves the rest of
    the caller's profile, every other profile, the counters and the event
    log as they were. *)
Theorem updatePreferences_spec env h z s :
  contractPaused s = false ->
  UserProfile.biometricCommitment (getUserProfile s (msg_sender env)) <> 0 ->
  (h = 0 ->
   transact (updatePreferences env h z) s = (s, Some InvalidPreferencesHash))
  /\ (h <> 0 ->
      exists s',
        updatePreferences env h z s = Ok (tt, s')
        /\ getUserProfile s' (msg_sender env)
           = UserProfile.set_lastActiveTimestamp (block_timestamp env)
               (UserProfile.set_preferencesHash h
                  (getUserProfile s (msg_sender env)))
        /\ (forall u, u <> msg_sender env ->
              getUserProfile s' u = getUserProfile s u)
        /\ getContractStats s' = getContractStats s
        /\ events s' = events s).
Proof.
  unfold getUserProfile, getContractStats. intros Hp Hreg.
  apply N.eqb_neq in Hreg. split.
  - intros ->. unfold updatePreferences. unfold_monad.
    rewrite Hreg. cbn [negb]. cbv beta iota. rewrite Hp. reflexivity.
  - intros Hh. apply N.eqb_neq in Hh. unfold updatePreferences.
    unfold_monad. rewrite Hreg. cbn [negb]. cbv beta iota. rewrite Hp.
    cbn [negb]. cbv beta iota. rewrite Hh. cbn [negb]. cbv beta iota.
    simpl_state. eexists. split; [reflexivity|]. simpl_state.
    repeat split.
    + rewrite !profile_lookup_insert. reflexivity.
    + intros u Hu. rewrite !lookup_total_insert_ne by congruence.
      reflexivity.
Qed.

(** Address 1 replaces its preferences hash 12 by 99 at time 60. *)
Lemma updatePreferences_spec_witness :
  exists s',
    updatePreferences (mkEnv 1 60) 99 no_signals registered = Ok (tt, s')
    /\ getUserProfile s' 1
       = UserProfile.mk 11 99 REGISTRATION_AURA 10 60 true false 0 0.
Proof.
  assert (H1 : contractPaused registered = false)
    by (vm_compute; reflexivity).
  assert (H2 : UserProfile.biometricCommitment
                 (getUserProfile registered (msg_sender (mkEnv 1 60))) <> 0)
    by (vm_compute; discriminate).
  assert (H3 : (99 : N) <> 0) by discriminate.
  destruct (proj2 (updatePreferences_spec (mkEnv 1 60) 99 no_signals
                     registered H1 H2) H3) as (s' & Hrun & Hprof & _).
  exists s'. split; [exact Hrun|].
  change (msg_sender (mkEnv 1 60)) with 1 in Hprof. rewrite Hprof.
  vm_compute. reflexivity.
Defined.

(** X5: a user who deactivates the profile can no longer submit a matching
    proof ("User not active") and can no longer be matched by the owner
    ("Both users must be active"). The call itself changes only the flag
    and the activity timestamp of the caller: the storage it leaves is the
    old one with that one profile replaced, so sessions, matches, reveal
    records, counters, owner, pause flag and event log are untouched. *)
Theorem setActiveStatus_false_blocks_matching
    (keccak256_packed : address -> address -> uint256 -> bytes32) env s :
  contractPaused s = false ->
  UserProfile.biometricCommitment (getUserProfile s (msg_sender env)) <> 0 ->
  exists s',
    setActiveStatus env false s = Ok (tt, s')
    /\ s' = set_userProfiles
              (<[msg_sender env :=
                   UserProfile.set_lastActiveTimestamp (block_timestamp env)
                     (UserProfile.set_isActive false
                        (getUserProfile s (msg_sender env)))]>
                 (userProfiles s)) s
    /\ getUserProfile s' (msg_sender env)
       = UserProfile.set_lastActiveTimestamp (block_timestamp env)
           (UserProfile.set_isActive false
              (getUserProfile s (msg_sender env)))
    /\ (forall u, u <> msg_sender env ->
          getUserProfile s' u = getUserProfile s u)
    /\ (forall env' h t z,
          msg_sender env' = msg_sender env ->
          transact (submitMatchingProof env' h t z) s'
          = (s', Some UserNotActive))
    /\ (forall env' other sc z,
          msg_sender env' = owner s' -> other <> msg_sender env ->
          transact (recordMutualMatch keccak256_packed env' (msg_sender env)
                      other sc z) s'
          = (s', Some BothUsersMustBeActive)
          /\ transact (recordMutualMatch keccak256_packed env' other
                         (msg_sender env) sc z) s'
             = (s', Some BothUsersMustBeActive)).
Proof.
  unfold getUserProfile. intros Hp Hreg. apply N.eqb_neq in Hreg.
  unfold setActiveStatus at 1. unfold_monad.
  rewrite Hreg. cbn [negb]. cbv beta iota. rewrite Hp. cbn [negb].
  cbv beta iota. simpl_state. rewrite profile_lookup_insert.
  match goal with |- exists s', Ok (tt, ?st) = _ /\ _ => set (s1 := st) end.
  assert (Hprof : userProfiles s1 !!! msg_sender env
                  = UserProfile.set_lastActiveTimestamp (block_timestamp env)
                      (UserProfile.set_isActive false
                         (userProfiles s !!! msg_sender env)))
    by (subst s1; simpl_state; apply profile_lookup_insert).
  assert (Hp1 : contractPaused s1 = false) by exact Hp.
  assert (Heq : s1 = set_userProfiles
                       (<[msg_sender env :=
                            UserProfile.set_lastActiveTimestamp
                              (block_timestamp env)
                              (UserProfile.set_isActive false
                                 (userProfiles s !!! msg_sender env))]>
                          (userProfiles s)) s)
    by (subst s1; rewrite profile_insert_insert; reflexivity).
  assert (Hothers : forall u, u <> msg_sender env ->
                      userProfiles s1 !!! u = userProfiles s !!! u).
  { intros u Hu. rewrite Heq. simpl_state.
    apply lookup_total_insert_ne. congruence. }
  clearbody s1. exists s1. split; [reflexivity|]. split; [exact Heq|].
  split; [exact Hprof|]. split; [exact Hothers|].
  split.
  - intros env' h t z Hs. unfold submitMatchingProof. unfold_monad.
    rewrite Hs, Hprof. simpl_struct. rewrite Hreg. cbn [negb].
    cbv beta iota. rewrite Hprof. reflexivity.
  - intros env' other sc z Hown Hother. apply N.eqb_neq in Hother.
    split; unfold recordMutualMatch; unfold_monad;
      rewrite Hown, N.eqb_refl; cbv beta iota; rewrite Hp1; cbn [negb];
      cbv beta iota.
    + rewrite N.eqb_sym, Hother. cbn [negb]. cbv beta iota.
      rewrite Hprof. reflexivity.
    + rewrite Hother. cbn [negb]. cbv beta iota.
      rewrite Hprof. simpl_struct. rewrite andb_false_r. reflexivity.
Qed.

(** Address 1 of the sample deployment deactivates and then submits. *)
Lemma setActiveStatus_false_blocks_matching_witness :
  exists s',
    setActiveStatus (mkEnv 1 70) false registered = Ok (tt, s')
    /\ transact (submitMatchingProof (mkEnv 1 71) 5 0 no_signals) s'
       = (s', Some UserNotActive).
Proof.
  assert (H1 : contractPaused registered = false)
    by (vm_compute; reflexivity).
  assert (H2 : UserProfile.biometricCommitment
                 (getUserProfile registered (msg_sender (mkEnv 1 70))) <> 0)
    by (vm_compute; discriminate).
  destruct (setActiveStatus_false_blocks_matching packed_id (mkEnv 1 70)
              registered H1 H2) as (s' & Hrun & _ & _ & _ & Hsub & _).
  exists s'. split; [exact Hrun|]. apply Hsub. reflexivity.
Defined.

(** * Owner-side Aura operations *)

Lemma set_auraPoints_same (p : UserProfile.t) :
  UserProfile.set_auraPoints (UserProfile.auraPoints p) p = p.
Proof. destruct p. reflexivity. Qed.

(** X6: [awardBonusAura] followed by [deductAura] of the same number of
    points gives every profile back as it was. Both calls succeed for a
    registered user when the award does not overflow. *)
Theorem awardBonusAura_then_deductAura env1 env2 u n r1 r2 s :
  msg_sender env1 = owner s ->
  msg_sender env2 = owner s ->
  contractPaused s = false ->
  UserProfile.biometricCommitment (getUserProfile s u) <> 0 ->
  UserProfile.auraPoints (getUserProfile s u) + n <= MAX_UINT256 ->
  exists s1 s2,
    awardBonusAura env1 u n r1 s = Ok (tt, s1)
    /\ UserProfile.auraPoints (getUserProfile s1 u)
       = UserProfile.auraPoints (getUserProfile s u) + n
    /\ deductAura env2 u n r2 s1 = Ok (tt, s2)
    /\ (forall a, getUserProfile s2 a = getUserProfile s a)
    /\ events s2
       = events s ++ [AuraPointsAwarded u n r1; AuraPointsDeducted u n r2].
Proof.
  unfold getUserProfile. intros Hown1 Hown2 Hp Hreg Hroom.
  apply N.eqb_neq in Hreg. apply N.leb_le in Hroom.
  unfold awardBonusAura. unfold_monad.
  rewrite Hown1, N.eqb_refl. cbv beta iota. rewrite Hp. cbn [negb].
  cbv beta iota. rewrite Hreg. cbn [negb]. cbv beta iota.
  rewrite Hroom. cbv beta iota. simpl_state.
  eexists. eexists. split; [reflexivity|]. simpl_state.
  rewrite profile_lookup_insert. simpl_struct. split; [reflexivity|].
  unfold deductAura. unfold_monad. simpl_state.
  rewrite Hown2, N.eqb_refl. cbv beta iota. simpl_state. rewrite Hp.
  cbn [negb]. cbv beta iota. simpl_state.
  rewrite profile_lookup_insert. simpl_struct.
  rewrite Hreg. cbn [negb]. cbv beta iota.
  assert (Hle : (n <=? UserProfile.auraPoints (userProfiles s !!! u) + n)
                = true) by (apply N.leb_le; lia).
  rewrite Hle. cbv beta iota. simpl_state.
  split; [reflexivity|]. simpl_state. split.
  - intros a. rewrite profile_insert_insert, ?profile_lookup_insert.
    simpl_struct.
    replace (UserProfile.auraPoints (userProfiles s !!! u) + n - n)
      with (UserProfile.auraPoints (userProfiles s !!! u)) by lia.
    rewrite lookup_total_insert. destruct (decide (u = a)) as [->|]; auto.
    destruct (userProfiles s !!! a). simpl_struct. reflexivity.
  - rewrite <- app_assoc. reflexivity.
Qed.

(** The owner grants address 1 forty points and takes them back. *)
Lemma awardBonusAura_then_deductAura_witness :
  exists s1 s2,
    awardBonusAura (mkEnv 9 80) 1 40 "gift" registered = Ok (tt, s1)
    /\ UserProfile.auraPoints (getUserProfile s1 1) = 140
    /\ deductAura (mkEnv 9 81) 1 40 "undo" s1 = Ok (tt, s2)
    /\ getUserProfile s2 1 = getUserProfile registered 1.
Proof.
  assert (H1 : msg_sender (mkEnv 9 80) = owner registered)
    by (vm_compute; reflexivity).
  assert (H2 : msg_sender (mkEnv 9 81) = owner registered)
    by (vm_compute; reflexivity).
  assert (H3 : contractPaused registered = false)
    by (vm_compute; reflexivity).
  assert (H4 : UserProfile.biometricCommitment (getUserProfile registered 1)
               <> 0) by (vm_compute; discriminate).
  assert (H5 : UserProfile.auraPoints (getUserProfile registered 1) + 40
               <= MAX_UINT256) by (vm_compute; discriminate).
  destruct (awardBonusAura_then_deductAura (mkEnv 9 80) (mkEnv 9 81) 1 40
              "gift" "undo" registered H1 H2 H3 H4 H5)
    as (s1 & s2 & Ha & Haura & Hd & Hsame & _).
  exists s1, s2. split; [exact Ha|]. split.
  - rewrite Haura. vm_compute. reflexivity.
  - split; [exact Hd | apply Hsame].
Defined.

(** X7: a credit that would take a balance above [2^256 - 1] makes
    [awardBonusAura] revert with the arithmetic panic; the balance does not
    wrap around and nothing is stored. *)
Theorem awardBonusAura_overflow_reverts env u n r s :
  msg_sender env = owner s ->
  contractPaused s = false ->
  UserProfile.biometricCommitment (getUserProfile s u) <> 0 ->
  MAX_UINT256 < UserProfile.auraPoints (getUserProfile s u) + n ->
  transact (awardBonusAura env u n r) s = (s, Some Panic).
Proof.
  unfold getUserProfile. intros Hown Hp Hreg Hover.
  apply N.eqb_neq in Hreg. apply N.leb_gt in Hover.
  unfold awardBonusAura. unfold_monad.
  rewrite Hown, N.eqb_refl. cbv beta iota. rewrite Hp. cbn [negb].
  cbv beta iota. rewrite Hreg. cbn [negb]. cbv beta iota.
  rewrite Hover. reflexivity.
Qed.

(** The largest award on top of the registration Aura. *)
Lemma awardBonusAura_overflow_reverts_witness :
  transact (awardBonusAura (mkEnv 9 80) 1 MAX_UINT256 "gift") registered
  = (registered, Some Panic).
Proof.
  apply awardBonusAura_overflow_reverts.
  - vm_compute. reflexivity.
  - vm_compute. reflexivity.
  - vm_compute. discriminate.
  - vm_compute. reflexivity.
Defined.

(** X8: [verifyUser] does not look at [isVerified]: on a user that is
    already verified it succeeds again and credits [VERIFICATION_AURA]
    again. *)
Theorem verifyUser_pays_each_time env u s :
  msg_sender env = owner s ->
  contractPaused s = false ->
  UserProfile.biometricCommitment (getUserProfile s u) <> 0 ->
  UserProfile.isVerified (getUserProfile s u) = true ->
  UserProfile.auraPoints (getUserProfile s u) + VERIFICATION_AURA
  <= MAX_UINT256 ->
  exists s',
    verifyUser env u s = Ok (tt, s')
    /\ getUserProfile s' u
       = UserProfile.set_auraPoints
           (UserProfile.auraPoints (getUserProfile s u) + VERIFICATION_AURA)
           (getUserProfile s u)
    /\ events s'
       = events s
         ++ [AuraPointsAwarded u VERIFICATION_AURA "Profile Verification"].
Proof.
  unfold getUserProfile. intros Hown Hp Hreg Hver Hroom.
  apply N.eqb_neq in Hreg. apply N.leb_le in Hroom.
  unfold verifyUser. unfold_monad.
  rewrite Hown, N.eqb_refl. cbv beta iota. rewrite Hp. cbn [negb].
  cbv beta iota. rewrite Hreg. cbn [negb]. cbv beta iota. simpl_state.
  rewrite profile_lookup_insert. simpl_struct. rewrite Hroom.
  cbv beta iota. simpl_state. eexists. split; [reflexivity|]. simpl_state.
  split; [|reflexivity].
  rewrite !profile_lookup_insert.
  destruct (userProfiles s !!! u). simpl_struct. subst. reflexivity.
Qed.

(** The owner verifies address 1 twice. *)
Lemma verifyUser_pays_each_time_witness :
  exists s',
    verifyUser (mkEnv 9 91) 1
      (step packed_id (mkEnv 9 90) (VerifyUser 1) registered)
    = Ok (tt, s')
    /\ UserProfile.auraPoints (getUserProfile s' 1) = 300.
Proof.
  pose (s1 := step packed_id (mkEnv 9 90) (VerifyUser 1) registered).
  assert (H1 : msg_sender (mkEnv 9 91) = owner s1)
    by (vm_compute; reflexivity).
  assert (H2 : contractPaused s1 = false) by (vm_compute; reflexivity).
  assert (H3 : UserProfile.biometricCommitment (getUserProfile s1 1) <> 0)
    by (vm_compute; discriminate).
  assert (H4 : UserProfile.isVerified (getUserProfile s1 1) = true)
    by (vm_compute; reflexivity).
  assert (H5 : UserProfile.auraPoints (getUserProfile s1 1)
               + VERIFICATION_AURA <= MAX_UINT256)
    by (vm_compute; discriminate).
  destruct (verifyUser_pays_each_time (mkEnv 9 91) 1 s1 H1 H2 H3 H4 H5)
    as (s' & Hrun & Hprof & _).
  exists s'. split; [exact Hrun|]. rewrite Hprof. vm_compute. reflexivity.
Defined.

(** * Administration *)

Lemma set_contractPaused_same (s : State) :
  set_contractPaused (contractPaused s) s = s.
Proof. destruct s. reflexivity. Qed.

(** X9: [setPaused] is not itself behind the pause gate: the owner can
    pause a running contract and, while it is paused, resume it, which
    gives back exactly the storage there was before pausing. *)
Theorem setPaused_pause_resume env1 env2 s :
  msg_sender env1 = owner s ->
  msg_sender env2 = owner s ->
  contractPaused s = false ->
  exists s1,
    setPaused env1 true s = Ok (tt, s1)
    /\ contractPaused s1 = true
    /\ setPaused env2 false s1 = Ok (tt, s).
Proof.
  intros Hown1 Hown2 Hp. unfold setPaused. unfold_monad.
  rewrite Hown1, N.eqb_refl. cbv beta iota.
  eexists. split; [reflexivity|]. simpl_state. split; [reflexivity|].
  rewrite Hown2, N.eqb_refl. cbv beta iota.
  destruct s. simpl_state. subst. reflexivity.
Qed.

(** The owner of the sample deployment pauses and resumes. *)
Lemma setPaused_pause_resume_witness :
  exists s1,
    setPaused (mkEnv 9 20) true registered = Ok (tt, s1)
    /\ contractPaused s1 = true
    /\ setPaused (mkEnv 9 21) false s1 = Ok (tt, registered).
Proof.
  apply setPaused_pause_resume; vm_compute; reflexivity.
Defined.

(** X10: [transferOwnership] refuses the zero address with "Invalid new
    owner"; to any other address it succeeds, paused or not, and hands the
    owner-only functions over: the previous owner is refused from then on
    and the new owner is admitted. *)
Theorem transferOwnership_hands_over env o s :
  msg_sender env = owner s ->
  (o = 0 ->
   transact (transferOwnership env o) s = (s, Some InvalidNewOwner))
  /\ (o <> 0 ->
      exists s',
        transferOwnership env o s = Ok (tt, s')
        /\ owner s' = o
        /\ (forall env' b,
              msg_sender env' = o ->
              setPaused env' b s' = Ok (tt, set_contractPaused b s'))
        /\ (forall env' b,
              msg_sender env' = owner s -> o <> owner s ->
              transact (setPaused env' b) s' = (s', Some OnlyOwner))).
Proof.
  intros Hown. split.
  - intros ->. unfold transferOwnership. unfold_monad.
    rewrite Hown, N.eqb_refl. reflexivity.
  - intros Ho. apply N.eqb_neq in Ho.
    unfold transferOwnership. unfold_monad.
    rewrite Hown, N.eqb_refl. cbv beta iota. rewrite Ho. cbn [negb].
    cbv beta iota. eexists. split; [reflexivity|]. simpl_state.
    split; [reflexivity|]. split.
    + intros env' b Hs. unfold setPaused. unfold_monad. simpl_state.
      rewrite Hs, N.eqb_refl. reflexivity.
    + intros env' b Hs Hne. unfold setPaused. unfold_monad. simpl_state.
      apply not_eq_sym in Hne. apply N.eqb_neq in Hne. rewrite Hs, Hne.
      reflexivity.
Qed.

(** The owner 9 of the sample deployment hands over to address 1. *)
Lemma transferOwnership_hands_over_witness :
  exists s',
    transferOwnership (mkEnv 9 30) 1 registered = Ok (tt, s')
    /\ owner s' = 1
    /\ transact (setPaused (mkEnv 9 31) true) s' = (s', Some OnlyOwner).
Proof.
  assert (H1 : msg_sender (mkEnv 9 30) = owner registered)
    by (vm_compute; reflexivity).
  assert (H2 : (1 : N) <> 0) by discriminate.
  destruct (proj2 (transferOwnership_hands_over (mkEnv 9 30) 1 registered
                     H1) H2) as (s' & Hrun & Hown & _ & Hold).
  exists s'. split; [exact Hrun|]. split; [exact Hown|].
  apply Hold; vm_compute; (reflexivity || discriminate).
Defined.

(** * The reveal, step by step *)

(** X12: what a successful [initiateIdentityReveal] does depends on the
    counterpart's flag alone. If the counterpart has not revealed, the call
    sets the caller's flag and nothing else: no profile, counter, event or
    [revealTimestamp] changes. If the counterpart has revealed, both
    participants get [REVEAL_AURA] and one more reveal, the global reveal
    counter goes up by one and [revealTimestamp] is the time of the
    call. *)
Theorem reveal_effect
    (keccak256_packed : address -> address -> uint256 -> bytes32)
    env matchId rc z s s' :
  let m := getMutualMatch s matchId in
  let m' := getMutualMatch s' matchId in
  let caller_is_user1 := MutualMatch.user1 m =? msg_sender env in
  let counterpart_revealed :=
    if caller_is_user1 then MutualMatch.user2Revealed m
    else MutualMatch.user1Revealed m in
  MutualMatch.user1 m <> MutualMatch.user2 m ->
  initiateIdentityReveal keccak256_packed env matchId rc z s = Ok (tt, s') ->
  (if caller_is_user1 then MutualMatch.user1Revealed m'
   else MutualMatch.user2Revealed m') = true
  /\ (counterpart_revealed = false ->
      userProfiles s' = userProfiles s
      /\ getContractStats s' = getContractStats s
      /\ events s' = events s
      /\ MutualMatch.revealTimestamp m' = MutualMatch.revealTimestamp m)
  /\ (counterpart_revealed = true ->
      getUserProfile s' (MutualMatch.user1 m)
      = UserProfile.set_totalReveals
          (UserProfile.totalReveals (getUserProfile s (MutualMatch.user1 m))
           + 1)
          (UserProfile.set_auraPoints
             (UserProfile.auraPoints (getUserProfile s (MutualMatch.user1 m))
              + REVEAL_AURA)
             (getUserProfile s (MutualMatch.user1 m)))
      /\ getUserProfile s' (MutualMatch.user2 m)
         = UserProfile.set_totalReveals
             (UserProfile.totalReveals
                (getUserProfile s (MutualMatch.user2 m)) + 1)
             (UserProfile.set_auraPoints
                (UserProfile.auraPoints
                   (getUserProfile s (MutualMatch.user2 m)) + REVEAL_AURA)
                (getUserProfile s (MutualMatch.user2 m)))
      /\ totalReveals s' = totalReveals s + 1
      /\ MutualMatch.revealTimestamp m' = block_timestamp env).
Proof.
  unfold getMutualMatch, getUserProfile, getContractStats. cbv zeta.
  destruct (mutualMatches s !!! matchId) as [u1 u2 sc ts r1 r2 rts] eqn:Hm.
  simpl_struct. intros Hne H.
  apply (initiateIdentityReveal_Ok _ _ _ _ _ _ _ _ _ _ _ _ _ _ Hm) in H.
  cbv zeta in H.
  destruct H as (_ & _ & _ & _ & Hmm & _ & Htr & Hinc & Hprof & _ & _ & _
                 & Htu & Htm & _).
  rewrite Hmm, match_lookup_insert. simpl_struct.
  destruct (u1 =? msg_sender env); cbn [andb] in *.
  - split; [reflexivity|]. split.
    + intros ->. destruct (Hinc eq_refl) as [-> ->].
      rewrite Htu, Htm, Htr. auto.
    + intros ->. destruct (Hprof eq_refl Hne) as [-> ->]. auto.
  - split; [reflexivity|]. rewrite andb_true_r in *. split.
    + intros ->. destruct (Hinc eq_refl) as [-> ->].
      rewrite Htu, Htm, Htr. auto.
    + intros ->. destruct (Hprof eq_refl Hne) as [-> ->]. auto.
Qed.

(** The first reveal on the sample match pays nothing; the second one pays
    address 2. *)
Lemma reveal_effect_witness :
  userProfiles first_revealed = userProfiles matched
  /\ UserProfile.auraPoints (getUserProfile both_revealed 2) = 325.
Proof.
  assert (H1 : MutualMatch.user1 (getMutualMatch matched sample_matchId)
               <> MutualMatch.user2 (getMutualMatch matched sample_matchId))
    by (vm_compute; discriminate).
  assert (H2 : initiateIdentityReveal packed_id (mkEnv 1 2000) sample_matchId
                 [] no_signals matched = Ok (tt, first_revealed))
    by (vm_compute; reflexivity).
  pose proof (reveal_effect packed_id (mkEnv 1 2000) sample_matchId []
                no_signals matched first_revealed H1 H2) as H.
  cbv zeta in H. destruct H as (_ & Hinc & _).
  split.
  - apply Hinc. vm_compute. reflexivity.
  - vm_compute. reflexivity.
Defined.

(** A reveal that does not complete the pair, run forwards. *)
Lemma initiateIdentityReveal_incomplete
    (keccak256_packed : address -> address -> uint256 -> bytes32)
    env matchId rc z s u1 u2 sc ts r1 r2 rts :
  mutualMatches s !!! matchId = MutualMatch.mk u1 u2 sc ts r1 r2 rts ->
  contractPaused s = false ->
  UserProfile.biometricCommitment (userProfiles s !!! msg_sender env) <> 0 ->
  u1 = msg_sender env \/ u2 = msg_sender env ->
  0 < ts ->
  let r1' := if u1 =? msg_sender env then true else r1 in
  let r2' := if u1 =? msg_sender env then r2 else true in
  r1' && r2' = false ->
  initiateIdentityReveal keccak256_packed env matchId rc z s
  = Ok (tt,
        set_hasRevealed
          (<[(msg_sender env,
              if matchId =? keccak256_packed u1 u2 ts then u1 else u2)
             := true]> (hasRevealed s))
          (set_mutualMatches
             (<[matchId := MutualMatch.mk u1 u2 sc ts r1' r2' rts]>
                (mutualMatches s)) s)).
Proof.
  intros Hm Hp Hreg Hpart Hts. cbv zeta. intros Hinc.
  apply N.eqb_neq in Hreg. apply N.ltb_lt in Hts.
  assert (Hpart' : (u1 =? msg_sender env) || (u2 =? msg_sender env) = true).
  { apply orb_true_iff. destruct Hpart; [left|right]; apply N.eqb_eq; auto. }
  unfold initiateIdentityReveal. unfold_monad.
  rewrite Hreg. cbn [negb]. cbv beta iota. rewrite Hp. cbn [negb].
  cbv beta iota. rewrite Hm. simpl_struct. rewrite Hpart'. cbv beta iota.
  rewrite Hts. cbv beta iota.
  destruct (u1 =? msg_sender env); cbv beta iota; simpl_state;
    rewrite !match_lookup_insert, ?Hm; simpl_struct; cbn [andb] in *;
    rewrite ?andb_true_r in *; rewrite Hinc; cbv beta iota; simpl_state;
    rewrite !match_lookup_insert; simpl_struct; reflexivity.
Qed.

Lemma set_maps_same (s : State) :
  set_hasRevealed (hasRevealed s) (set_mutualMatches (mutualMatches s) s) = s.
Proof. destruct s. reflexivity. Qed.

(** X13: while the counterpart has not revealed, a participant who calls
    [initiateIdentityReveal] again after a successful call changes
    nothing: the second call succeeds and leaves the storage exactly as
    the first call left it. *)
Theorem repeated_reveal_before_completion
    (keccak256_packed : address -> address -> uint256 -> bytes32)
    env1 env2 matchId rc1 z1 rc2 z2 s s1 :
  let m := getMutualMatch s matchId in
  msg_sender env2 = msg_sender env1 ->
  (if MutualMatch.user1 m =? msg_sender env1
   then MutualMatch.user2Revealed m
   else MutualMatch.user1Revealed m) = false ->
  initiateIdentityReveal keccak256_packed env1 matchId rc1 z1 s
  = Ok (tt, s1) ->
  initiateIdentityReveal keccak256_packed env2 matchId rc2 z2 s1
  = Ok (tt, s1).
Proof.
  unfold getMutualMatch. cbv zeta.
  destruct (mutualMatches s !!! matchId) as [u1 u2 sc ts r1 r2 rts] eqn:Hm.
  simpl_struct. intros Hsender Hother H1.
  apply (initiateIdentityReveal_Ok _ _ _ _ _ _ _ _ _ _ _ _ _ _ Hm) in H1.
  cbv zeta in H1.
  assert (Hc : (if u1 =? msg_sender env1 then true else r1)
               && (if u1 =? msg_sender env1 then r2 else true) = false).
  { destruct (u1 =? msg_sender env1); rewrite Hother; reflexivity. }
  rewrite Hc in H1.
  destruct H1 as (Hp & Hreg & Hpart & Hts & Hmm & Hrev & _ & Hinc & _ & _
                  & _ & Hp1 & _).
  destruct (Hinc eq_refl) as [Hprof _].
  assert (Hm1 := f_equal (fun mm => mm !!! matchId) Hmm).
  cbv beta in Hm1. rewrite match_lookup_insert in Hm1.
  rewrite (initiateIdentityReveal_incomplete keccak256_packed env2 matchId
             rc2 z2 s1 _ _ _ _ _ _ _ Hm1); rewrite ?Hsender;
    try assumption.
  - assert (Hidem1 : (if u1 =? msg_sender env1 then true
                      else if u1 =? msg_sender env1 then true else r1)
                     = (if u1 =? msg_sender env1 then true else r1))
      by (destruct (u1 =? msg_sender env1); reflexivity).
    assert (Hidem2 : (if u1 =? msg_sender env1
                      then if u1 =? msg_sender env1 then r2 else true
                      else true)
                     = (if u1 =? msg_sender env1 then r2 else true))
      by (destruct (u1 =? msg_sender env1); reflexivity).
    rewrite Hidem1, Hidem2, Hmm, Hrev, !insert_insert_eq, <- Hmm, <- Hrev.
    rewrite set_maps_same. reflexivity.
  - congruence.
  - rewrite Hprof. assumption.
  - destruct (u1 =? msg_sender env1); rewrite ?Hother; reflexivity.
Qed.

(** Address 1 reveals twice before address 2 has revealed. *)
Lemma repeated_reveal_before_completion_witness :
  initiateIdentityReveal packed_id (mkEnv 1 2005) sample_matchId []
    no_signals first_revealed
  = Ok (tt, first_revealed).
Proof.
  assert (H1 : (if MutualMatch.user1 (getMutualMatch matched sample_matchId)
                   =? msg_sender (mkEnv 1 2000)
                then MutualMatch.user2Revealed
                       (getMutualMatch matched sample_matchId)
                else MutualMatch.user1Revealed
                       (getMutualMatch matched sample_matchId)) = false)
    by (vm_compute; reflexivity).
  assert (H2 : initiateIdentityReveal packed_id (mkEnv 1 2000) sample_matchId
                 [] no_signals matched = Ok (tt, first_revealed))
    by (vm_compute; reflexivity).
  exact (repeated_reveal_before_completion packed_id (mkEnv 1 2000)
           (mkEnv 1 2005) sample_matchId [] no_signals [] no_signals
           matched first_revealed eq_refl H1 H2).
Defined.

(** * Invariants of the storage *)

(** The profile mapping after a successful [recordMutualMatch]. *)
Lemma recordMutualMatch_profiles
    (keccak256_packed : address -> address -> uint256 -> bytes32)
    env a b score z s s' :
  recordMutualMatch keccak256_packed env a b score z s = Ok (tt, s') ->
  userProfiles s'
  = upd b count_match
      (upd a count_match
         (upd b (credit MATCH_AURA)
            (upd a (credit MATCH_AURA) (userProfiles s)))).
Proof.
  intros H. unfold recordMutualMatch in H. unfold_monad_in H.
  on_guard H. on_guard H. on_guard H. on_guard H. on_guard H.
  simpl_state.
  on_guard H. simpl_state. on_guard H. simpl_state.
  on_guard H. simpl_state. on_guard H. simpl_state. on_guard H.
  inv_ok H. simpl_state. reflexivity.
Qed.

(** The profile mapping after a successful [initiateIdentityReveal]. *)
Lemma initiateIdentityReveal_profiles
    (keccak256_packed : address -> address -> uint256 -> bytes32)
    env matchId rc z s s' u1 u2 sc ts r1 r2 rts :
  mutualMatches s !!! matchId = MutualMatch.mk u1 u2 sc ts r1 r2 rts ->
  initiateIdentityReveal keccak256_packed env matchId rc z s = Ok (tt, s') ->
  userProfiles s' = userProfiles s
  \/ userProfiles s'
     = upd u2 count_reveal
         (upd u1 count_reveal
            (upd u2 (credit REVEAL_AURA)
               (upd u1 (credit REVEAL_AURA) (userProfiles s)))).
Proof.
  intros Hm H. unfold initiateIdentityReveal in H. unfold_monad_in H.
  on_guard H. on_guard H. rewrite Hm in H. simpl_struct.
  on_guard H. on_guard H.
  destruct (u1 =? msg_sender env) eqn:E3; simpl_state;
    rewrite !match_lookup_insert in H; rewrite ?Hm in H; simpl_struct;
    cbn [andb] in H.
  - destruct r2.
    + simpl_state. rewrite ?match_lookup_insert in H. simpl_struct.
      on_guard H. simpl_state. on_guard H. simpl_state.
      on_guard H. simpl_state. on_guard H. simpl_state.
      on_guard H. inv_ok H. simpl_state. right. reflexivity.
    + inv_ok H. simpl_state. left. reflexivity.
  - destruct r1; cbn [andb] in H.
    + simpl_state. rewrite ?match_lookup_insert in H. simpl_struct.
      on_guard H. simpl_state. on_guard H. simpl_state.
      on_guard H. simpl_state. on_guard H. simpl_state.
      on_guard H. inv_ok H. simpl_state. right. reflexivity.
    + inv_ok H. simpl_state. left. reflexivity.
Qed.

Lemma upd_commitment (m : gmap address UserProfile.t) a f b :
  keeps_commitment f ->
  UserProfile.biometricCommitment (upd a f m !!! b)
  = UserProfile.biometricCommitment (m !!! b).
Proof.
  intros Hf. unfold upd. rewrite lookup_total_insert.
  destruct (decide (a = b)) as [->|]; auto.
Qed.

Lemma registered_stored (m : gmap address UserProfile.t) a :
  UserProfile.biometricCommitment (m !!! a) <> 0 -> is_Some (m !! a).
Proof.
  rewrite lookup_total_alt. destruct (m !! a); [eauto|].
  intros H. exfalso. apply H. reflexivity.
Qed.

Lemma upd_stored (m : gmap address UserProfile.t) a f b :
  UserProfile.biometricCommitment (m !!! a) <> 0 ->
  is_Some (upd a f m !! b) -> is_Some (m !! b).
Proof.
  intros Ha. unfold upd. rewrite lookup_insert_is_Some.
  intros [<-|[_ ?]]; [apply registered_stored|]; assumption.
Qed.

Lemma upd_size (m : gmap address UserProfile.t) a f :
  UserProfile.biometricCommitment (m !!! a) <> 0 ->
  size (upd a f m) = size m.
Proof.
  intros Ha. apply map_size_insert_Some, registered_stored, Ha.
Qed.

(** Updates of registered users keep the well-formedness facts about the
    profile mapping. *)
Lemma upd_frame (m m' : gmap address UserProfile.t) :
  (forall b, UserProfile.biometricCommitment (m' !!! b)
             = UserProfile.biometricCommitment (m !!! b)) ->
  (forall b, is_Some (m' !! b) -> is_Some (m !! b)) ->
  size m' = size m ->
  forall a f,
    keeps_commitment f ->
    UserProfile.biometricCommitment (m !!! a) <> 0 ->
    (forall b, UserProfile.biometricCommitment (upd a f m' !!! b)
               = UserProfile.biometricCommitment (m !!! b))
    /\ (forall b, is_Some (upd a f m' !! b) -> is_Some (m !! b))
    /\ size (upd a f m') = size m.
Proof.
  intros Hc Hs Hsz a f Hf Ha.
  assert (Ha' : UserProfile.biometricCommitment (m' !!! a) <> 0)
    by (rewrite Hc; exact Ha).
  split; [|split].
  - intros b. rewrite upd_commitment by assumption. apply Hc.
  - intros b Hb. apply Hs. eapply upd_stored; eassumption.
  - rewrite upd_size by assumption. exact Hsz.
Qed.

Lemma keeps_commitment_credit n : keeps_commitment (credit n).
Proof. intros p. reflexivity. Qed.

Lemma keeps_commitment_count_match : keeps_commitment count_match.
Proof. intros p. reflexivity. Qed.

Lemma keeps_commitment_count_reveal : keeps_commitment count_reveal.
Proof. intros p. reflexivity. Qed.

#[local] Hint Resolve keeps_commitment_credit keeps_commitment_count_match
  keeps_commitment_count_reveal : core.

(** A call that touches the profiles only through updates of registered
    users, and neither the matches nor [totalUsers], keeps the storage
    well formed. *)
Lemma storage_wf_frame
    (keccak256_packed : address -> address -> uint256 -> bytes32) s s' :
  storage_wf keccak256_packed s ->
  (forall b, UserProfile.biometricCommitment (userProfiles s' !!! b)
             = UserProfile.biometricCommitment (userProfiles s !!! b)) ->
  (forall b, is_Some (userProfiles s' !! b) ->
             is_Some (userProfiles s !! b)) ->
  size (userProfiles s') = size (userProfiles s) ->
  (forall i m, mutualMatches s' !! i = Some m ->
     exists m0, mutualMatches s !! i = Some m0
                /\ MutualMatch.user1 m = MutualMatch.user1 m0
                /\ MutualMatch.user2 m = MutualMatch.user2 m0
                /\ MutualMatch.matchTimestamp m
                   = MutualMatch.matchTimestamp m0
                /\ MutualMatch.compatibilityScore m
                   = MutualMatch.compatibilityScore m0) ->
  totalUsers s' = totalUsers s ->
  storage_wf keccak256_packed s'.
Proof.
  intros (Hprof & Hmatch & Hcount) Hc Hs Hsz Hm Htu.
  unfold storage_wf, registered_in in *. split; [|split].
  - intros a Ha. rewrite Hc. auto.
  - intros i m Him. destruct (Hm i m Him) as (m0 & H0 & -> & -> & -> & ->).
    rewrite !Hc. apply Hmatch. exact H0.
  - rewrite Htu, Hsz. exact Hcount.
Qed.

Lemma storage_wf_upd
    (keccak256_packed : address -> address -> uint256 -> bytes32)
    s s' u f :
  storage_wf keccak256_packed s ->
  keeps_commitment f ->
  registered_in s u ->
  userProfiles s' = upd u f (userProfiles s) ->
  mutualMatches s' = mutualMatches s ->
  totalUsers s' = totalUsers s ->
  storage_wf keccak256_packed s'.
Proof.
  intros Hwf Hf Hu Hprof Hmatch Htu.
  destruct (upd_frame (userProfiles s) (userProfiles s)
              (fun _ => eq_refl) (fun _ H => H) eq_refl u f Hf Hu)
    as (Hc & Hs & Hsz).
  apply (storage_wf_frame keccak256_packed s s' Hwf); rewrite ?Hprof;
    try assumption.
  intros i m Him. rewrite Hmatch in Him. exists m. auto.
Qed.

Lemma active_registered
    (keccak256_packed : address -> address -> uint256 -> bytes32) s a :
  storage_wf keccak256_packed s ->
  UserProfile.isActive (userProfiles s !!! a) = true ->
  registered_in s a.
Proof.
  intros (Hprof & _) Ha. apply Hprof.
  rewrite lookup_total_alt in Ha. destruct (userProfiles s !! a); [eauto|].
  discriminate Ha.
Qed.

Lemma upd_chain (m : gmap address UserProfile.t) a b f1 f2 f3 f4 :
  keeps_commitment f1 -> keeps_commitment f2 ->
  keeps_commitment f3 -> keeps_commitment f4 ->
  UserProfile.biometricCommitment (m !!! a) <> 0 ->
  UserProfile.biometricCommitment (m !!! b) <> 0 ->
  let m' := upd b f4 (upd a f3 (upd b f2 (upd a f1 m))) in
  (forall x, UserProfile.biometricCommitment (m' !!! x)
             = UserProfile.biometricCommitment (m !!! x))
  /\ (forall x, is_Some (m' !! x) -> is_Some (m !! x))
  /\ size m' = size m.
Proof.
  intros H1 H2 H3 H4 Ha Hb. cbv zeta.
  destruct (upd_frame m m (fun _ => eq_refl) (fun _ H => H) eq_refl
              a f1 H1 Ha) as (Hc1 & Hs1 & Hz1).
  destruct (upd_frame m _ Hc1 Hs1 Hz1 b f2 H2 Hb) as (Hc2 & Hs2 & Hz2).
  destruct (upd_frame m _ Hc2 Hs2 Hz2 a f3 H3 Ha) as (Hc3 & Hs3 & Hz3).
  exact (upd_frame m _ Hc3 Hs3 Hz3 b f4 H4 Hb).
Qed.

(** Every entry point keeps the storage well formed. *)
Lemma storage_wf_dispatch
    (keccak256_packed : address -> address -> uint256 -> bytes32)
    env c s s' :
  storage_wf keccak256_packed s ->
  dispatch keccak256_packed env c s = Ok (tt, s') ->
  storage_wf keccak256_packed s'.
Proof.
  intros Hwf H. destruct c; cbn [dispatch] in H.
  - (* registerUser *)
    apply registerUser_Ok in H as (_ & Hnew & Hc & ->).
    destruct Hwf as (Hprof & Hmatch & Hcount).
    assert (Hnone : userProfiles s !! msg_sender env = None).
    { destruct (userProfiles s !! msg_sender env) eqn:E; [|reflexivity].
      exfalso. apply (Hprof (msg_sender env)); [rewrite E; eauto|exact Hnew]. }
    assert (Hreg : forall a, registered_in s a ->
              UserProfile.biometricCommitment
                (<[msg_sender env :=
                     UserProfile.mk biometricCommitment preferencesHash
                       REGISTRATION_AURA (block_timestamp env)
                       (block_timestamp env) true false 0 0]>
                   (userProfiles s) !!! a) <> 0).
    { intros a Ha. rewrite lookup_total_insert.
      destruct (decide (msg_sender env = a)); [exact Hc|exact Ha]. }
    unfold storage_wf, registered_in in *. simpl_state. split; [|split].
    + intros a Ha. rewrite lookup_total_insert.
      destruct (decide (msg_sender env = a)) as [|Hne]; [exact Hc|].
      rewrite lookup_insert_ne in Ha by exact Hne. auto.
    + intros i m Him. destruct (Hmatch i m Him) as (? & ? & ? & ? & ?).
      auto 10.
    + rewrite map_size_insert_None by exact Hnone.
      rewrite Hcount. lia.
  - (* updatePreferences *)
    apply updatePreferences_Ok in H as (_ & Hreg & _ & ->).
    apply (storage_wf_upd keccak256_packed s _ (msg_sender env)
             (fun p => UserProfile.set_lastActiveTimestamp
                         (block_timestamp env)
                         (UserProfile.set_preferencesHash newPreferencesHash
                            p)));
      try assumption; try reflexivity. intros p. reflexivity.
  - (* submitMatchingProof *)
    apply submitMatchingProof_Ok in H as (_ & Hreg & _ & _ & ->).
    apply (storage_wf_upd keccak256_packed s _ (msg_sender env)
             (UserProfile.set_lastActiveTimestamp (block_timestamp env)));
      try assumption; try reflexivity. intros p. reflexivity.
  - (* recordMutualMatch *)
    pose proof (recordMutualMatch_profiles _ _ _ _ _ _ _ _ H) as Hprof'.
    apply recordMutualMatch_Ok in H.
    destruct H as (_ & _ & Hne & Ha & Hb & Hsc & _ & _ & _ & Hmm & _ & Htu
                   & _).
    pose proof (active_registered _ _ _ Hwf Ha) as Hra.
    pose proof (active_registered _ _ _ Hwf Hb) as Hrb.
    destruct (upd_chain (userProfiles s) user1 user2
                (credit MATCH_AURA) (credit MATCH_AURA) count_match
                count_match) as (Hc & Hs & Hsz); auto.
    rewrite <- Hprof' in Hc, Hs, Hsz.
    destruct Hwf as (Hprof & Hmatch & Hcount).
    unfold storage_wf, registered_in in *. split; [|split].
    + intros a Hsa. rewrite Hc. auto.
    + intros i m Him. rewrite Hmm in Him. rewrite !Hc.
      apply lookup_insert_Some in Him as [[<- <-]|[_ Him]].
      * simpl_struct. auto.
      * apply Hmatch. exact Him.
    + rewrite Htu, Hsz. exact Hcount.
  - (* initiateIdentityReveal *)
    destruct (mutualMatches s !!! matchId) as [u1 u2 sc ts r1 r2 rts] eqn:Hm.
    pose proof (initiateIdentityReveal_profiles _ _ _ _ _ _ _ _ _ _ _ _ _ _
                  Hm H) as Hprof'.
    apply (initiateIdentityReveal_Ok _ _ _ _ _ _ _ _ _ _ _ _ _ _ Hm) in H.
    cbv zeta in H.
    destruct H as (_ & _ & _ & Hts & Hmm & _ & _ & _ & _ & _ & _ & _ & Htu
                   & _).
    assert (Hstored : mutualMatches s !! matchId
                      = Some (MutualMatch.mk u1 u2 sc ts r1 r2 rts)).
    { rewrite lookup_total_alt in Hm.
      destruct (mutualMatches s !! matchId) as [m0|]; cbn in Hm.
      - rewrite Hm. reflexivity.
      - injection Hm as <- <- <- <- <- <- <-. lia. }
    pose proof Hwf as (_ & Hmatch & _).
    destruct (Hmatch _ _ Hstored) as (_ & _ & _ & Hr1 & Hr2).
    simpl_struct.
    assert (Hfacts :
      (forall x, UserProfile.biometricCommitment (userProfiles s' !!! x)
                 = UserProfile.biometricCommitment (userProfiles s !!! x))
      /\ (forall x, is_Some (userProfiles s' !! x) ->
                    is_Some (userProfiles s !! x))
      /\ size (userProfiles s') = size (userProfiles s)).
    { destruct Hprof' as [->| ->]; [auto|].
      apply upd_chain; auto. }
    destruct Hfacts as (Hc & Hs & Hsz).
    apply (storage_wf_frame keccak256_packed s s' Hwf); try assumption.
    intros i m Him. rewrite Hmm in Him.
    apply lookup_insert_Some in Him as [[<- <-]|[_ Him]].
    + eexists. split; [exact Hstored|]. simpl_struct. auto.
    + exists m. auto.
  - (* awardBonusAura *)
    apply awardBonusAura_Ok in H as (_ & _ & Hreg & _ & ->).
    apply (storage_wf_upd keccak256_packed s _ user (credit points));
      try assumption; try reflexivity. auto.
  - (* deductAura *)
    apply deductAura_Ok in H as (_ & _ & Hreg & ->).
    apply (storage_wf_upd keccak256_packed s _ user
             (fun p => UserProfile.set_auraPoints
                         (UserProfile.auraPoints p - points) p));
      try assumption; try reflexivity. intros p. reflexivity.
  - (* setActiveStatus *)
    apply setActiveStatus_Ok in H as (_ & Hreg & ->).
    apply (storage_wf_upd keccak256_packed s _ (msg_sender env)
             (fun p => UserProfile.set_lastActiveTimestamp
                         (block_timestamp env)
                         (UserProfile.set_isActive isActive p)));
      try assumption; try reflexivity. intros p. reflexivity.
  - (* verifyUser *)
    apply verifyUser_Ok in H as (_ & _ & Hreg & _ & ->).
    apply (storage_wf_upd keccak256_packed s _ user
             (fun p => UserProfile.set_auraPoints
                         (UserProfile.auraPoints p + VERIFICATION_AURA)
                         (UserProfile.set_isVerified true p)));
      try assumption; try reflexivity. intros p. reflexivity.
  - (* setPaused *)
    apply setPaused_Ok in H as (_ & ->). exact Hwf.
  - (* transferOwnership *)
    apply transferOwnership_Ok in H as (_ & _ & ->). exact Hwf.
Qed.

Lemma storage_wf_constructor
    (keccak256_packed : address -> address -> uint256 -> bytes32) deployer :
  storage_wf keccak256_packed (constructor deployer).
Proof.
  unfold storage_wf, constructor. simpl_state. split; [|split].
  - intros a [p Hp]. rewrite lookup_empty in Hp. discriminate.
  - intros i m Hm. rewrite lookup_empty in Hm. discriminate.
  - rewrite map_size_empty. reflexivity.
Qed.

Lemma reachable_storage_wf
    (keccak256_packed : address -> address -> uint256 -> bytes32) s :
  reachable keccak256_packed s -> storage_wf keccak256_packed s.
Proof.
  induction 1 as [d|env c s Hs IH].
  - apply storage_wf_constructor.
  - destruct (step_cases keccak256_packed env c s) as [->|H]; [exact IH|].
    eapply storage_wf_dispatch; eassumption.
Qed.

Lemma run_reachable
    (keccak256_packed : address -> address -> uint256 -> bytes32) txs s :
  reachable keccak256_packed s ->
  reachable keccak256_packed (run keccak256_packed txs s).
Proof.
  revert s. induction txs as [|[env c] txs IH]; intros s Hs; cbn [run].
  - exact Hs.
  - apply IH. apply reachable_step. exact Hs.
Qed.

Lemma reachable_matched : reachable packed_id matched.
Proof.
  unfold matched, registered. do 2 apply run_reachable.
  apply reachable_deploy.
Qed.

(** X14: in every storage the contract can reach, a stored match sits
    under the digest of its own two participants and timestamp, its
    participants are two distinct registered users, and its score is at
    most 100. *)
Theorem reachable_matches_well_formed
    (keccak256_packed : address -> address -> uint256 -> bytes32) s i m :
  reachable keccak256_packed s ->
  mutualMatches s !! i = Some m ->
  i = keccak256_packed (MutualMatch.user1 m) (MutualMatch.user2 m)
        (MutualMatch.matchTimestamp m)
  /\ MutualMatch.user1 m <> MutualMatch.user2 m
  /\ MutualMatch.compatibilityScore m <= 100
  /\ UserProfile.biometricCommitment (getUserProfile s (MutualMatch.user1 m))
     <> 0
  /\ UserProfile.biometricCommitment (getUserProfile s (MutualMatch.user2 m))
     <> 0.
Proof.
  intros Hs Hm. apply reachable_storage_wf in Hs as (_ & Hmatch & _).
  exact (Hmatch i m Hm).
Qed.

(** The match of the sample deployment. *)
Lemma reachable_matches_well_formed_witness :
  sample_matchId = packed_id 1 2 1000
  /\ MutualMatch.compatibilityScore (MutualMatch.mk 1 2 80 1000 false false 0)
     <= 100.
Proof.
  assert (H : mutualMatches matched !! sample_matchId
              = Some (MutualMatch.mk 1 2 80 1000 false false 0))
    by (vm_compute; reflexivity).
  destruct (reachable_matches_well_formed packed_id matched sample_matchId _
              reachable_matched H) as (Hid & _ & Hsc & _).
  split; [exact Hid | exact Hsc].
Defined.

(** X15: in every storage the contract can reach, the addresses with a
    stored profile are exactly the registered ones (those that pass
    [onlyRegisteredUser]), and [totalUsers], the first component of
    [getContractStats], is their number. *)
Theorem reachable_totalUsers_counts_profiles
    (keccak256_packed : address -> address -> uint256 -> bytes32) s :
  reachable keccak256_packed s ->
  (forall a,
     is_Some (userProfiles s !! a)
     <-> UserProfile.biometricCommitment (getUserProfile s a) <> 0)
  /\ (getContractStats s).1.1 = N.of_nat (size (userProfiles s)).
Proof.
  intros Hs. apply reachable_storage_wf in Hs as (Hprof & _ & Hcount).
  split; [|exact Hcount].
  intros a. split; [apply Hprof | apply registered_stored].
Qed.

(** Two users are registered on the sample deployment. *)
Lemma reachable_totalUsers_counts_profiles_witness :
  (getContractStats matched).1.1 = N.of_nat (size (userProfiles matched)).
Proof.
  apply (reachable_totalUsers_counts_profiles packed_id matched
           reachable_matched).
Defined.

(** * What no call does *)

Lemma upd4_commitment (m : gmap address UserProfile.t) a b f1 f2 f3 f4 x :
  keeps_commitment f1 -> keeps_commitment f2 ->
  keeps_commitment f3 -> keeps_commitment f4 ->
  UserProfile.biometricCommitment
    (upd b f4 (upd a f3 (upd b f2 (upd a f1 m))) !!! x)
  = UserProfile.biometricCommitment (m !!! x).
Proof. intros. rewrite !upd_commitment by assumption. reflexivity. Qed.

(** X16: registration is permanent. Whatever the storage, no transaction
    changes the biometric commitment of an address that is registered; in
    particular no call unregisters a user or rebinds a profile to another
    commitment. *)
Theorem commitment_never_changes
    (keccak256_packed : address -> address -> uint256 -> bytes32)
    env c s a :
  UserProfile.biometricCommitment (getUserProfile s a) <> 0 ->
  UserProfile.biometricCommitment
    (getUserProfile (step keccak256_packed env c s) a)
  = UserProfile.biometricCommitment (getUserProfile s a).
Proof.
  unfold getUserProfile. intros Ha.
  destruct (step_cases keccak256_packed env c s) as [->|H]; [reflexivity|].
  revert H. generalize (step keccak256_packed env c s) as s'. intros s' H.
  destruct c; cbn [dispatch] in H.
  - apply registerUser_Ok in H as (_ & Hnew & _ & ->). simpl_state.
    rewrite lookup_total_insert_ne; [reflexivity|]. intros <-. auto.
  - apply updatePreferences_Ok in H as (_ & _ & _ & ->). simpl_state.
    apply (upd_commitment _ _
             (fun p => UserProfile.set_lastActiveTimestamp _
                         (UserProfile.set_preferencesHash _ p))).
    intros p. reflexivity.
  - apply submitMatchingProof_Ok in H as (_ & _ & _ & _ & ->). simpl_state.
    apply (upd_commitment _ _ (UserProfile.set_lastActiveTimestamp _)).
    intros p. reflexivity.
  - apply recordMutualMatch_profiles in H. rewrite H.
    apply upd4_commitment; auto.
  - destruct (mutualMatches s !!! matchId) as [u1 u2 sc ts r1 r2 rts] eqn:Hm.
    destruct (initiateIdentityReveal_profiles _ _ _ _ _ _ _ _ _ _ _ _ _ _
                Hm H) as [->| ->]; [reflexivity|].
    apply upd4_commitment; auto.
  - apply awardBonusAura_Ok in H as (_ & _ & _ & _ & ->). simpl_state.
    apply (upd_commitment _ _ (credit _)). auto.
  - apply deductAura_Ok in H as (_ & _ & _ & ->). simpl_state.
    apply (upd_commitment _ _
             (fun p => UserProfile.set_auraPoints
                         (UserProfile.auraPoints p - _) p)).
    intros p. reflexivity.
  - apply setActiveStatus_Ok in H as (_ & _ & ->). simpl_state.
    apply (upd_commitment _ _
             (fun p => UserProfile.set_lastActiveTimestamp _
                         (UserProfile.set_isActive _ p))).
    intros p. reflexivity.
  - apply verifyUser_Ok in H as (_ & _ & _ & _ & ->). simpl_state.
    apply (upd_commitment _ _
             (fun p => UserProfile.set_auraPoints
                         (UserProfile.auraPoints p + VERIFICATION_AURA)
                         (UserProfile.set_isVerified true p))).
    intros p. reflexivity.
  - apply setPaused_Ok in H as (_ & ->). reflexivity.
  - apply transferOwnership_Ok in H as (_ & _ & ->). reflexivity.
Qed.

(** Address 1 keeps commitment 11 when it tries to register again with
    commitment 77. *)
Lemma commitment_never_changes_witness :
  UserProfile.biometricCommitment
    (getUserProfile
       (step packed_id (mkEnv 1 99) (RegisterUser 77 78 no_signals)
          registered) 1)
  = UserProfile.biometricCommitment (getUserProfile registered 1).
Proof.
  apply commitment_never_changes. vm_compute. discriminate.
Defined.

(** X17: the three counters of [getContractStats] never go down, and a
    transaction raises at most one of them, by exactly one: [totalUsers]
    only in [registerUser], [totalMatches] only in [recordMutualMatch],
    [totalReveals] only in [initiateIdentityReveal]. *)
Theorem counters_step
    (keccak256_packed : address -> address -> uint256 -> bytes32) env c s :
  let s' := step keccak256_packed env c s in
  (getContractStats s' = getContractStats s)
  \/ ((exists b p z, c = RegisterUser b p z)
      /\ getContractStats s'
         = (totalUsers s + 1, totalMatches s, totalReveals s))
  \/ ((exists a b sc z, c = RecordMutualMatch a b sc z)
      /\ getContractStats s'
         = (totalUsers s, totalMatches s + 1, totalReveals s))
  \/ ((exists i rc z, c = InitiateIdentityReveal i rc z)
      /\ getContractStats s'
         = (totalUsers s, totalMatches s, totalReveals s + 1)).
Proof.
  cbv zeta. unfold getContractStats.
  destruct (step_cases keccak256_packed env c s) as [->|H]; [auto|].
  revert H. generalize (step keccak256_packed env c s) as s'. intros s' H.
  destruct c; cbn [dispatch] in H.
  - apply registerUser_Ok in H as (_ & _ & _ & ->). simpl_state.
    right. left. eauto 10.
  - apply updatePreferences_Ok in H as (_ & _ & _ & ->). auto.
  - apply submitMatchingProof_Ok in H as (_ & _ & _ & _ & ->). auto.
  - apply recordMutualMatch_Ok in H.
    destruct H as (_ & _ & _ & _ & _ & _ & _ & _ & _ & _ & -> & -> & ->
                   & _).
    right. right. left. eauto 10.
  - destruct (mutualMatches s !!! matchId) as [u1 u2 sc ts r1 r2 rts] eqn:Hm.
    apply (initiateIdentityReveal_Ok _ _ _ _ _ _ _ _ _ _ _ _ _ _ Hm) in H.
    cbv zeta in H.
    destruct H as (_ & _ & _ & _ & _ & _ & -> & _ & _ & _ & _ & _ & -> & ->
                   & _).
    match goal with |- context [if ?b then _ else _] => destruct b end.
    + right. right. right. eauto 10.
    + auto.
  - apply awardBonusAura_Ok in H as (_ & _ & _ & _ & ->). auto.
  - apply deductAura_Ok in H as (_ & _ & _ & ->). auto.
  - apply setActiveStatus_Ok in H as (_ & _ & ->). auto.
  - apply verifyUser_Ok in H as (_ & _ & _ & _ & ->). auto.
  - apply setPaused_Ok in H as (_ & ->). auto.
  - apply transferOwnership_Ok in H as (_ & _ & ->). auto.
Qed.

Lemma upd_aura_le (m : gmap address UserProfile.t) a f x :
  (forall p, UserProfile.auraPoints p <= UserProfile.auraPoints (f p)) ->
  UserProfile.auraPoints (m !!! x)
  <= UserProfile.auraPoints (upd a f m !!! x).
Proof.
  intros Hf. unfold upd. rewrite lookup_total_insert.
  destruct (decide (a = x)) as [->|]; [apply Hf|reflexivity].
Qed.

Lemma upd4_aura_le (m : gmap address UserProfile.t) a b f1 f2 f3 f4 x :
  (forall p, UserProfile.auraPoints p <= UserProfile.auraPoints (f1 p)) ->
  (forall p, UserProfile.auraPoints p <= UserProfile.auraPoints (f2 p)) ->
  (forall p, UserProfile.auraPoints p <= UserProfile.auraPoints (f3 p)) ->
  (forall p, UserProfile.auraPoints p <= UserProfile.auraPoints (f4 p)) ->
  UserProfile.auraPoints (m !!! x)
  <= UserProfile.auraPoints
       (upd b f4 (upd a f3 (upd b f2 (upd a f1 m))) !!! x).
Proof.
  intros H1 H2 H3 H4.
  etransitivity; [|apply upd_aura_le, H4].
  etransitivity; [|apply upd_aura_le, H3].
  etransitivity; [|apply upd_aura_le, H2].
  apply upd_aura_le, H1.
Qed.

Lemma credit_aura_le n p :
  UserProfile.auraPoints p <= UserProfile.auraPoints (credit n p).
Proof. unfold credit. simpl_struct. lia. Qed.

Lemma count_match_aura_le p :
  UserProfile.auraPoints p <= UserProfile.auraPoints (count_match p).
Proof. reflexivity. Qed.

Lemma count_reveal_aura_le p :
  UserProfile.auraPoints p <= UserProfile.auraPoints (count_reveal p).
Proof. reflexivity. Qed.

(** X18: on a deployed contract no transaction other than [deductAura]
    lowers anybody's Aura balance. *)
Theorem aura_lowered_only_by_deductAura
    (keccak256_packed : address -> address -> uint256 -> bytes32)
    env c s a :
  reachable keccak256_packed s ->
  (forall u n r, c <> DeductAura u n r) ->
  UserProfile.auraPoints (getUserProfile s a)
  <= UserProfile.auraPoints
       (getUserProfile (step keccak256_packed env c s) a).
Proof.
  unfold getUserProfile. intros Hs Hc.
  apply reachable_storage_wf in Hs as (Hprof & _).
  destruct (step_cases keccak256_packed env c s) as [->|H]; [reflexivity|].
  revert H. generalize (step keccak256_packed env c s) as s'. intros s' H.
  destruct c; cbn [dispatch] in H.
  - apply registerUser_Ok in H as (_ & Hnew & _ & ->). simpl_state.
    rewrite lookup_total_insert.
    destruct (decide (msg_sender env = a)) as [<-|]; [|reflexivity].
    simpl_struct.
    assert (Hnone : userProfiles s !! msg_sender env = None).
    { destruct (userProfiles s !! msg_sender env) eqn:E; [|reflexivity].
      exfalso. apply (Hprof (msg_sender env)); [rewrite E; eauto|exact Hnew]. }
    rewrite lookup_total_alt, Hnone. cbn. lia.
  - apply updatePreferences_Ok in H as (_ & _ & _ & ->). simpl_state.
    apply (upd_aura_le _ _
             (fun p => UserProfile.set_lastActiveTimestamp _
                         (UserProfile.set_preferencesHash _ p))).
    intros p. reflexivity.
  - apply submitMatchingProof_Ok in H as (_ & _ & _ & _ & ->). simpl_state.
    apply (upd_aura_le _ _ (UserProfile.set_lastActiveTimestamp _)).
    intros p. reflexivity.
  - apply recordMutualMatch_profiles in H. rewrite H.
    apply upd4_aura_le; auto using credit_aura_le, count_match_aura_le.
  - destruct (mutualMatches s !!! matchId) as [u1 u2 sc ts r1 r2 rts] eqn:Hm.
    destruct (initiateIdentityReveal_profiles _ _ _ _ _ _ _ _ _ _ _ _ _ _
                Hm H) as [->| ->]; [reflexivity|].
    apply upd4_aura_le; auto using credit_aura_le, count_reveal_aura_le.
  - apply awardBonusAura_Ok in H as (_ & _ & _ & _ & ->). simpl_state.
    apply (upd_aura_le _ _ (credit _)), credit_aura_le.
  - exfalso. eapply Hc. reflexivity.
  - apply setActiveStatus_Ok in H as (_ & _ & ->). simpl_state.
    apply (upd_aura_le _ _
             (fun p => UserProfile.set_lastActiveTimestamp _
                         (UserProfile.set_isActive _ p))).
    intros p. reflexivity.
  - apply verifyUser_Ok in H as (_ & _ & _ & _ & ->). simpl_state.
    apply (upd_aura_le _ _
             (fun p => UserProfile.set_auraPoints
                         (UserProfile.auraPoints p + VERIFICATION_AURA)
                         (UserProfile.set_isVerified true p))).
    intros p. simpl_struct. lia.
  - apply setPaused_Ok in H as (_ & ->). reflexivity.
  - apply transferOwnership_Ok in H as (_ & _ & ->). reflexivity.
Qed.

(** The owner verifies address 1 of the sample deployment. *)
Lemma aura_lowered_only_by_deductAura_witness :
  (UserProfile.auraPoints (getUserProfile matched 1)
   <=? UserProfile.auraPoints
         (getUserProfile (step packed_id (mkEnv 9 1500) (VerifyUser 1)
                            matched) 1))
  = true.
Proof.
  apply N.leb_le.
  apply (aura_lowered_only_by_deductAura packed_id (mkEnv 9 1500)
           (VerifyUser 1) matched 1 reachable_matched).
  intros u n r. discriminate.
Defined.

(** X19: [recordMutualMatch] does not check that the identifier is free.
    On success the match stored under the digest of the pair and the block
    timestamp is the new one, whatever was stored there: recording the same
    ordered pair again at the same timestamp replaces the earlier match and
    clears its reveal flags and [revealTimestamp]. Every other identifier
    keeps its match. *)
Theorem recordMutualMatch_overwrites
    (keccak256_packed : address -> address -> uint256 -> bytes32)
    env a b sc z s s' :
  recordMutualMatch keccak256_packed env a b sc z s = Ok (tt, s') ->
  getMutualMatch s' (keccak256_packed a b (block_timestamp env))
  = MutualMatch.mk a b sc (block_timestamp env) false false 0
  /\ (forall i,
        i <> keccak256_packed a b (block_timestamp env) ->
        getMutualMatch s' i = getMutualMatch s i).
Proof.
  unfold getMutualMatch. intros H. apply recordMutualMatch_Ok in H.
  destruct H as (_ & _ & _ & _ & _ & _ & _ & _ & _ & -> & _). split.
  - apply match_lookup_insert.
  - intros i Hi. apply lookup_total_insert_ne. congruence.
Qed.

(** The owner records the sample match again at time 1000 after address 1
    has revealed: the reveal flag of address 1 is gone. *)
Lemma recordMutualMatch_overwrites_witness :
  MutualMatch.user1Revealed (getMutualMatch first_revealed sample_matchId)
  = true
  /\ getMutualMatch
       (step packed_id (mkEnv 9 1000) (RecordMutualMatch 1 2 55 no_signals)
          first_revealed) (packed_id 1 2 1000)
     = MutualMatch.mk 1 2 55 1000 false false 0.
Proof.
  split; [vm_compute; reflexivity|].
  assert (H : recordMutualMatch packed_id (mkEnv 9 1000) 1 2 55 no_signals
                first_revealed
              = Ok (tt, step packed_id (mkEnv 9 1000)
                          (RecordMutualMatch 1 2 55 no_signals)
                          first_revealed))
    by (vm_compute; reflexivity).
  exact (proj1 (recordMutualMatch_overwrites packed_id (mkEnv 9 1000) 1 2 55
                  no_signals first_revealed _ H)).
Defined.

(** * Zero values *)

(** X20: on a contract that is not paused, a caller without a profile who
    registers the zero commitment is refused with "Invalid biometric
    commitment", and a registered, active caller who submits the zero
    matching hash is refused with "Invalid matching hash"; neither call
    stores anything. *)
Theorem zero_values_refused env z s :
  contractPaused s = false ->
  (UserProfile.biometricCommitment (getUserProfile s (msg_sender env)) = 0 ->
   forall p,
     transact (registerUser env 0 p z) s
     = (s, Some InvalidBiometricCommitment))
  /\ (UserProfile.biometricCommitment (getUserProfile s (msg_sender env))
      <> 0 ->
      UserProfile.isActive (getUserProfile s (msg_sender env)) = true ->
      forall t,
        transact (submitMatchingProof env 0 t z) s
        = (s, Some InvalidMatchingHash)).
Proof.
  unfold getUserProfile. intros Hp. split.
  - intros Hnew p. unfold registerUser. unfold_monad.
    rewrite Hp. cbn [negb]. cbv beta iota. rewrite Hnew. reflexivity.
  - intros Hreg Hact t. apply N.eqb_neq in Hreg.
    unfold submitMatchingProof. unfold_monad.
    rewrite Hreg. cbn [negb]. cbv beta iota. rewrite Hact. cbv beta iota.
    rewrite Hp. reflexivity.
Qed.

(** Address 5 registers the zero commitment; address 1 submits the zero
    hash. *)
Lemma zero_values_refused_witness :
  transact (registerUser (mkEnv 5 50) 0 12 no_signals) registered
  = (registered, Some InvalidBiometricCommitment)
  /\ transact (submitMatchingProof (mkEnv 1 50) 0 7 no_signals) registered
     = (registered, Some InvalidMatchingHash).
Proof.
  assert (Hp : contractPaused registered = false)
    by (vm_compute; reflexivity).
  split.
  - apply (proj1 (zero_values_refused (mkEnv 5 50) no_signals registered
                    Hp)).
    vm_compute. reflexivity.
  - apply (proj2 (zero_values_refused (mkEnv 1 50) no_signals registered
                    Hp)).
    + vm_compute. discriminate.
    + vm_compute. reflexivity.
Defined.
